(** * The comment downloader of [main.py]: model and properties

    [main.py] is an HTTP handler that pages through the comment threads of a
    channel and returns them as CSV text.  The development embeds
    [list_comments], [execute_job] and [get_tokens] together with the Python
    operations they call, and states the properties of the paginated fetch
    loop over that embedding.

    Conventions of the embedding:
    - a Python [str] is the [string] of the bytes of its UTF-8 form, a
      surrogate code point that stands alone being written as the three
      bytes its number gives (ED A0 80 to ED BF BF); such a text has no
      UTF-8 encoding, and [utf8_valid] tells the texts that have one;
    - the scratch file is a text file on a POSIX system, so a written line
      feed is stored as it is; what is written to it is encoded at the
      write, which a text without UTF-8 encoding fails;
    - a Python [int] is a [Z];
    - the values [json.loads] produces are the constructors of [json], with
      [JNull] standing for [None];
    - [json.loads], [int] on a string and [str] on a value that is not a
      string are library code: they are the fields of [PyRuntime];
    - the remote side is a sequence of responses, [api n] answering the
      [n]-th HTTP call of the run; every call is answered, a connection
      that fails is not part of the model;
    - every HTTP call and every operation on the scratch file is recorded in
      a trace, which is the state threaded through the code;
    - the [while True] loop takes a fuel argument; a run that uses it up is
      reported as [Spin]. *)

From Stdlib Require Import ZArith String Ascii List Lia Bool.
From stdpp Require Import base option list gmap strings pretty.

Local Open Scope Z_scope.


(** ** Python values and exceptions *)

(** [JObj] holds the items of a [dict] in insertion order, [JFloat] the
    literal of a number that is not an integer. *)
#[warnings="-register-all"]
Inductive json : Type :=
| JNull
| JBool (b : bool)
| JInt (z : Z)
| JFloat (lit : string)
| JStr (s : string)
| JArr (l : list json)
| JObj (kv : list (string * json)).

Inductive exn : Type :=
| APIException (code : Z) (text : string)
| KeyError (key : string)
| TypeError
| AttributeError
| ValueError
| IndexError
| UnicodeEncodeError.

(** Outcome of code that touches no state. *)
Inductive pyres (A : Type) : Type :=
| Val (a : A)
| Exn (e : exn).
Arguments Val {A} a.
Arguments Exn {A} e.

#[global] Instance pyres_ret : MRet pyres := fun A a => Val a.
#[global] Instance pyres_bind : MBind pyres := fun A B k m =>
  match m with
  | Val a => k a
  | Exn e => Exn e
  end.

(** Library code the handler relies on. [json_loads] is [None] where
    [json.loads] raises, [py_int] is [None] where [int] raises on a string,
    [py_str] is [str] on the values that are not strings. *)
Class PyRuntime : Type := {
  json_loads : string -> option json;
  py_int : string -> option Z;
  py_str : json -> string
}.

(** ** Characters and strings *)

Definition CR : ascii := "013"%char.
Definition LF : ascii := "010"%char.
Definition DQ : ascii := "034"%char.
Definition LBRACE : ascii := "{"%char.
Definition RBRACE : ascii := "}"%char.

Definition str1 (c : ascii) : string := String c EmptyString.

(** [s.replace(old, new)] for a pattern [old] of one character, which is
    the only form the source uses. *)
Fixpoint replace_char (old : ascii) (new : string) (s : string) : string :=
  match s with
  | EmptyString => EmptyString
  | String c rest =>
      if Ascii.eqb c old then new +:+ replace_char old new rest
      else String c (replace_char old new rest)
  end.

(** [sub in s] on two strings. *)
Fixpoint str_contains (sub s : string) : bool :=
  if String.prefix sub s then true
  else match s with
       | EmptyString => false
       | String _ rest => str_contains sub rest
       end.

(** number of occurrences of a character *)
Fixpoint count_char (c : ascii) (s : string) : nat :=
  match s with
  | EmptyString => O
  | String d rest => ((if Ascii.eqb d c then 1 else 0) + count_char c rest)%nat
  end.

Fixpoint stake (n : nat) (s : string) : string :=
  match n, s with
  | S m, String c rest => String c (stake m rest)
  | _, _ => EmptyString
  end.

Fixpoint sdrop (n : nat) (s : string) : string :=
  match n, s with
  | S m, String _ rest => sdrop m rest
  | _, _ => s
  end.

Fixpoint sconcat (l : list string) : string :=
  match l with
  | [] => EmptyString
  | s :: rest => s +:+ sconcat rest
  end.

(** The well-formed UTF-8 byte sequences, which are the texts
    [str.encode('utf-8')] accepts and the bytes [bytes.decode('utf-8')]
    accepts: after a lead byte, [k] continuation bytes are due, the next of
    them between [lo] and [hi]. *)
Fixpoint utf8_scan (s : string) (k : nat) (lo hi : N) : bool :=
  match s with
  | EmptyString => Nat.eqb k 0
  | String c rest =>
      let n := N_of_ascii c in
      match k with
      | O =>
          if (n <? 128)%N then utf8_scan rest 0 128 191
          else if (194 <=? n)%N && (n <=? 223)%N then utf8_scan rest 1 128 191
          else if (n =? 224)%N then utf8_scan rest 2 160 191
          else if (n =? 237)%N then utf8_scan rest 2 128 159
          else if (225 <=? n)%N && (n <=? 239)%N then utf8_scan rest 2 128 191
          else if (n =? 240)%N then utf8_scan rest 3 144 191
          else if (n =? 244)%N then utf8_scan rest 3 128 143
          else if (241 <=? n)%N && (n <=? 243)%N then utf8_scan rest 3 128 191
          else false
      | S k' =>
          if (lo <=? n)%N && (n <=? hi)%N then utf8_scan rest k' 128 191
          else false
      end
  end.

Definition utf8_valid (s : string) : bool := utf8_scan s 0 128 191.

(** ** Operations on Python values *)

Fixpoint assoc (k : string) (kv : list (string * json)) : option json :=
  match kv with
  | [] => None
  | (k', v) :: rest => if String.eqb k k' then Some v else assoc k rest
  end.

Definition is_none (v : json) : bool :=
  match v with
  | JNull => true
  | _ => false
  end.

(** [v[key]] for a string key *)
Definition py_getitem (v : json) (key : string) : pyres json :=
  match v with
  | JObj kv =>
      match assoc key kv with
      | Some x => Val x
      | None => Exn (KeyError key)
      end
  | _ => Exn TypeError
  end.

Definition is_str (key : string) (v : json) : bool :=
  match v with
  | JStr s => String.eqb s key
  | _ => false
  end.

(** [key in v] for a string key *)
Definition py_contains (key : string) (v : json) : pyres bool :=
  match v with
  | JObj kv => Val (bool_decide (is_Some (assoc key kv)))
  | JArr l => Val (existsb (is_str key) l)
  | JStr s => Val (str_contains key s)
  | _ => Exn TypeError
  end.

(** the elements [for item in v] runs through *)
Definition py_iter (v : json) : pyres (list json) :=
  match v with
  | JArr l => Val l
  | JObj kv => Val (map (fun p => JStr (fst p)) kv)
  | JStr s => Val (map (fun c => JStr (str1 c)) (list_ascii_of_string s))
  | _ => Exn TypeError
  end.

(** [v.replace(old, new)]: only a [str] has the method *)
Definition py_replace (v : json) (old : ascii) (new : string) : pyres json :=
  match v with
  | JStr s => Val (JStr (replace_char old new s))
  | _ => Exn AttributeError
  end.

(** what a [{}] field of [str.format] prints for a value *)
Definition field_str `{PyRuntime} (v : json) : string :=
  match v with
  | JStr s => s
  | _ => py_str v
  end.

(** [fmt.format] on the values [args], for templates whose replacement fields are all the
    automatic [{}]; doubled braces stand for one brace. *)
Fixpoint py_format `{PyRuntime} (fmt : string) (args : list json) : pyres string :=
  match fmt with
  | EmptyString => Val EmptyString
  | String c rest =>
      if Ascii.eqb c LBRACE then
        match rest with
        | String d rest' =>
            if Ascii.eqb d RBRACE then
              match args with
              | [] => Exn IndexError
              | a :: args' => r ← py_format rest' args'; Val (field_str a +:+ r)
              end
            else if Ascii.eqb d LBRACE then
              r ← py_format rest' args; Val (String LBRACE r)
            else Exn ValueError
        | EmptyString => Exn ValueError
        end
      else if Ascii.eqb c RBRACE then
        match rest with
        | String d rest' =>
            if Ascii.eqb d RBRACE then
              r ← py_format rest' args; Val (String RBRACE r)
            else Exn ValueError
        | EmptyString => Exn ValueError
        end
      else r ← py_format rest args; Val (String c r)
  end.

(** [int(v)] where [v] is what [os.environ.get] returned *)
Definition py_int_of `{PyRuntime} (v : option string) : pyres Z :=
  match v with
  | None => Exn TypeError
  | Some s =>
      match py_int s with
      | Some z => Val z
      | None => Exn ValueError
      end
  end.

Definition loads `{PyRuntime} (s : string) : pyres json :=
  match json_loads s with
  | Some v => Val v
  | None => Exn ValueError
  end.

(** ** The world: HTTP calls and the scratch file *)

Record Response : Type := { status_code : Z; text : string }.

Record HttpCall : Type := {
  verb : string;
  url : string;
  params : list (string * json);
  headers : list (string * string)
}.

Inductive event : Type :=
| Http (c : HttpCall)
| Write (s : string)
| Flush
| Seek (offset : nat)
| Read.

(** The state of a run is the trace of what it did so far, oldest first. *)
Definition World : Type := list event.

Fixpoint calls (tr : World) : list HttpCall :=
  match tr with
  | [] => []
  | Http c :: rest => c :: calls rest
  | _ :: rest => calls rest
  end.

(** number of HTTP calls made so far *)
Definition served (tr : World) : nat := length (calls tr).

Inductive result (A : Type) : Type :=
| Done (a : A)
| Raise (e : exn)
| Spin.
Arguments Done {A} a.
Arguments Raise {A} e.
Arguments Spin {A}.

Definition M (A : Type) : Type := World -> result A * World.

#[global] Instance M_ret : MRet M := fun A a w => (Done a, w).
#[global] Instance M_bind : MBind M := fun A B k m w =>
  match m w with
  | (Done a, w') => k a w'
  | (Raise e, w') => (Raise e, w')
  | (Spin, w') => (Spin, w')
  end.

Definition raise {A : Type} (e : exn) : M A := fun w => (Raise e, w).
Definition spin {A : Type} : M A := fun w => (Spin, w).
Definition emit (e : event) : M unit := fun w => (Done tt, w ++ [e]).

Definition lift {A : Type} (r : pyres A) : M A :=
  match r with
  | Val a => mret a
  | Exn e => raise e
  end.

(** [requests.get] and [requests.post]: the call is recorded and answered
    by the next response of the remote side. *)
Definition http (api : nat -> Response) (c : HttpCall) : M Response :=
  fun w => (Done (api (served w)), w ++ [Http c]).

Definition requests_get (api : nat -> Response) (u : string)
    (p : list (string * json)) (h : list (string * string)) : M Response :=
  http api {| verb := "GET"; url := u; params := p; headers := h |}.

Definition requests_post (api : nat -> Response) (u : string)
    (p : list (string * json)) (h : list (string * string)) : M Response :=
  http api {| verb := "POST"; url := u; params := p; headers := h |}.

(** A text file opened with [mode='r+'] and the default [newline]: [stored]
    is what the file holds, [pending] what was written and not yet flushed,
    [pos] the position of the next transfer. *)
Record TempFile : Type := { stored : string; pending : string; pos : nat }.

Definition TemporaryFile : TempFile :=
  {| stored := EmptyString; pending := EmptyString; pos := O |}.

(** writing [p] at position [n] replaces what was there *)
Definition overwrite (s : string) (n : nat) (p : string) : string :=
  stake n s +:+ p +:+ sdrop (n + String.length p) s.

Definition commit (f : TempFile) : TempFile :=
  {| stored := overwrite (stored f) (pos f) (pending f);
     pending := EmptyString;
     pos := (pos f + String.length (pending f))%nat |}.

(** Reading with the default [newline] translates the line endings CR LF
    and CR to LF. *)
Fixpoint universal_newlines (s : string) : string :=
  match s with
  | EmptyString => EmptyString
  | String c rest =>
      if Ascii.eqb c CR then
        String LF
          match rest with
          | String d rest' =>
              if Ascii.eqb d LF then universal_newlines rest'
              else universal_newlines rest
          | EmptyString => EmptyString
          end
      else String c (universal_newlines rest)
  end.

(** [f.write(s)]: the file was opened with [encoding='utf-8'] and encodes
    the text as it takes it, so a text without UTF-8 encoding raises
    [UnicodeEncodeError] and none of it is written. *)
Definition f_write (f : TempFile) (s : string) : M TempFile :=
  if utf8_valid s then
    _ ← emit (Write s);
    mret {| stored := stored f; pending := pending f +:+ s; pos := pos f |}
  else raise UnicodeEncodeError.

Definition f_flush (f : TempFile) : M TempFile :=
  _ ← emit Flush;
  mret (commit f).

Definition f_seek (f : TempFile) (offset : nat) : M TempFile :=
  _ ← emit (Seek offset);
  mret {| stored := stored (commit f); pending := EmptyString; pos := offset |}.

Definition f_read (f : TempFile) : M (TempFile * string) :=
  _ ← emit Read;
  let g := commit f in
  mret ({| stored := stored g; pending := EmptyString;
           pos := String.length (stored g) |},
        universal_newlines (sdrop (pos g) (stored g))).

(** ** The handler *)

Record Request : Type := {
  method : string;
  query_string : string;
  args : gmap string string;
  form : gmap string string
}.

(** [request.form[key]] *)
Definition form_get (request : Request) (key : string) : pyres string :=
  match form request !! key with
  | Some v => Val v
  | None => Exn (KeyError key)
  end.

(** [os.environ.get(key)] as a value *)
Definition environ_get (environ : gmap string string) (key : string) : json :=
  match environ !! key with
  | Some v => JStr v
  | None => JNull
  end.

Definition RECORD_FORMAT : string :=
  str1 DQ +:+ "{}" +:+ str1 DQ +:+ "," +:+ str1 DQ +:+ "{}" +:+ str1 DQ +:+ ","
  +:+ str1 DQ +:+ "{}" +:+ str1 DQ +:+ str1 LF.

(** the dictionary [list_comments] returns *)
Record NextToken : Type := { nt_token : json; nt_count : Z }.

(** the dictionary [get_tokens] returns *)
Record Tokens : Type := {
  success : bool;
  tk_status_code : Z;
  access_token : json;
  refresh_token : json;
  message : string
}.

Section Handler.
Context `{PyRuntime}.
Variable api : nat -> Response.

(** the text of one record: the body of the [for] loop up to the write *)
Definition record_of (item : json) : pyres string :=
  snippet ← (s ← py_getitem item "snippet";
             t ← py_getitem s "topLevelComment";
             py_getitem t "snippet");
  text ← (o ← py_getitem snippet "textOriginal";
          r ← py_replace o CR EmptyString;
          py_replace r LF "\n");
  published ← py_getitem snippet "publishedAt";
  author ← py_getitem snippet "authorDisplayName";
  py_format RECORD_FORMAT [published; author; text].

(** the [for item in result['items']] loop *)
Fixpoint write_items (items : list json) (f : TempFile) (count : Z)
    : M (TempFile * Z) :=
  match items with
  | [] => mret (f, count)
  | item :: rest =>
      line ← lift (record_of item);
      f ← f_write f line;
      write_items rest f (count + 1)
  end.

Definition list_comments (f : TempFile) (token : json)
    (channel_id access_token : string) : M (TempFile * NextToken) :=
  let url := "https://www.googleapis.com/youtube/v3/commentThreads" in
  bearer ← lift (py_format "Bearer {}" [JStr access_token]);
  let header := [("authorization", bearer)] in
  let param := [("part", JStr "snippet");
                ("allThreadsRelatedToChannelId", JStr channel_id);
                ("textFormat", JStr "plainText")] in
  let param := if is_none token then param
               else param ++ [("pageToken", token)] in
  response ← requests_get api url param header;
  let count := 0 in
  if status_code response =? 200 then
    result ← lift (loads (text response));
    has ← lift (py_contains "nextPageToken" result);
    next_page_token ← lift (if has : bool then py_getitem result "nextPageToken"
                            else Val JNull);
    items ← lift (l ← py_getitem result "items"; py_iter l);
    '(f, count) ← write_items items f count;
    f ← f_flush f;
    mret (f, {| nt_token := next_page_token; nt_count := count |})
  else raise (APIException (status_code response) (text response)).

(** the [while True] loop of [execute_job], [fuel] bounding its rounds *)
Fixpoint fetch_loop (fuel : nat) (limit : Z) (channel_id access_token : string)
    (fp : TempFile) (token : json) (total_count : Z) : M string :=
  match fuel with
  | O => spin
  | S fuel' =>
      '(fp, next_token) ← list_comments fp token channel_id access_token;
      let total_count := total_count + nt_count next_token in
      let token := if total_count <=? limit then nt_token next_token else JNull in
      if is_none token then
        fp ← f_seek fp 0;
        '(_, data) ← f_read fp;
        mret data
      else fetch_loop fuel' limit channel_id access_token fp token total_count
  end.

Definition execute_job (fuel : nat) (environ : gmap string string)
    (request : Request) : M string :=
  access_token ← lift (form_get request "access_token");
  channel_id ← lift (form_get request "channel_id");
  limit ← lift (py_int_of (environ !! "LIMIT"));
  let total_count := 0 in
  let fp := TemporaryFile in
  fetch_loop fuel limit channel_id access_token fp JNull total_count.

Definition get_tokens (environ : gmap string string) (request : Request)
    : M Tokens :=
  code ← lift (form_get request "code");
  let params := [("code", JStr code);
                 ("grant_type", JStr "authorization_code");
                 ("client_secret", environ_get environ "CLIENT_SECRET");
                 ("client_id", environ_get environ "CLIENT_ID");
                 ("redirect_uri", environ_get environ "REDIRECT_URI")] in
  let header := [("Content-Type", "application/json")] in
  response ← requests_post api "https://oauth2.googleapis.com/token" params header;
  if status_code response =? 200 then
    result ← lift (loads (text response));
    a ← lift (py_getitem result "access_token");
    r ← lift (py_getitem result "refresh_token");
    mret {| success := true; tk_status_code := 200; access_token := a;
            refresh_token := r; message := EmptyString |}
  else
    mret {| success := false; tk_status_code := status_code response;
            access_token := JNull; refresh_token := JNull;
            message := text response |}.

End Handler.

(** ** What a response means *)

(** A comment as the loop reads it out of an item. *)
Record Comment : Type := {
  publishedAt : json;
  authorDisplayName : json;
  textOriginal : string
}.

Record Page : Type := { comments : list Comment; nextPageToken : json }.

(** the text as it is put into a record: no carriage return, and
    backslash-n for every line feed *)
Definition transformed (t : string) : string :=
  replace_char LF "\n" (replace_char CR EmptyString t).

Definition quoted (s : string) : string := String DQ (s +:+ str1 DQ).

(** one CSV record: three quoted fields, commas between them, a line feed
    at the end *)
Definition csv_line `{PyRuntime} (c : Comment) : string :=
  quoted (field_str (publishedAt c)) +:+ "," +:+
  quoted (field_str (authorDisplayName c)) +:+ "," +:+
  quoted (transformed (textOriginal c)) +:+ str1 LF.

Definition csv `{PyRuntime} (cs : list Comment) : string :=
  sconcat (map csv_line cs).

Definition all_comments (pages : list Page) : list Comment :=
  concat (map comments pages).

(** the comment an item holds: the three fields of
    [item['snippet']['topLevelComment']['snippet']], the text being a
    string *)
Definition comment_of (item : json) : option Comment :=
  match (s ← py_getitem item "snippet";
         t ← py_getitem s "topLevelComment";
         py_getitem t "snippet") with
  | Val snippet =>
      match py_getitem snippet "textOriginal",
            py_getitem snippet "publishedAt",
            py_getitem snippet "authorDisplayName" with
      | Val (JStr t), Val p, Val a =>
          Some {| publishedAt := p; authorDisplayName := a; textOriginal := t |}
      | _, _, _ => None
      end
  | Exn _ => None
  end.

Fixpoint comments_of (items : list json) : option (list Comment) :=
  match items with
  | [] => Some []
  | item :: rest =>
      match comment_of item, comments_of rest with
      | Some c, Some cs => Some (c :: cs)
      | _, _ => None
      end
  end.

(** the next page token of a decoded body, as [list_comments] takes it *)
Definition next_of (result : json) : pyres json :=
  has ← py_contains "nextPageToken" result;
  if has : bool then py_getitem result "nextPageToken" else Val JNull.

(** the token and the items of a response body, in the order
    [list_comments] computes them *)
Definition page_head `{PyRuntime} (r : Response) : pyres (json * list json) :=
  result ← loads (text r);
  next_page_token ← next_of result;
  items ← (l ← py_getitem result "items"; py_iter l);
  Val (next_page_token, items).

(** a comment whose record has a UTF-8 encoding, as the write to the
    scratch file needs *)
Definition encodable `{PyRuntime} (c : Comment) : Prop :=
  utf8_valid (csv_line c) = true.

(** the records the [for] loop writes before it ends, and the exception
    that ends it early: that of an item that makes no record, or that of
    the write of a record without UTF-8 encoding *)
Fixpoint lines_of `{PyRuntime} (items : list json) : list string * option exn :=
  match items with
  | [] => ([], None)
  | item :: rest =>
      match record_of item with
      | Exn e => ([], Some e)
      | Val line =>
          if utf8_valid line then
            let '(ls, oe) := lines_of rest in (line :: ls, oe)
          else ([], Some UnicodeEncodeError)
      end
  end.

(** a response with status 200 whose body holds well-formed comments *)
Definition decode_page `{PyRuntime} (r : Response) : option Page :=
  if status_code r =? 200 then
    match page_head r with
    | Val (next, items) =>
        match comments_of items with
        | Some cs => Some {| comments := cs; nextPageToken := next |}
        | None => None
        end
    | Exn _ => None
    end
  else None.

(** number of items of a response, 0 where [list_comments] counts none *)
Definition page_size `{PyRuntime} (r : Response) : nat :=
  match page_head r with
  | Val (_, items) => length items
  | Exn _ => O
  end.

(** the test that ends the loop after a page *)
Definition stops (limit total : Z) (next : json) : Prop :=
  next = JNull \/ limit < total.

(** [fetch_run api limit n total pages]: a loop that has counted [total]
    records and is about to make call [n] fetches exactly [pages], every
    call answered with status 200 and well-formed comments, and stops after
    the last of them. *)
Inductive fetch_run `{PyRuntime} (api : nat -> Response) (limit : Z)
    : nat -> Z -> list Page -> Prop :=
| run_last n total p :
    decode_page (api n) = Some p ->
    stops limit (total + Z.of_nat (length (comments p))) (nextPageToken p) ->
    fetch_run api limit n total [p]
| run_more n total p ps :
    decode_page (api n) = Some p ->
    ~ stops limit (total + Z.of_nat (length (comments p))) (nextPageToken p) ->
    fetch_run api limit (S n) (total + Z.of_nat (length (comments p))) ps ->
    fetch_run api limit n total (p :: ps).

(** the call [list_comments] makes for a page token *)
Definition call_of (channel_id access_token : string) (token : json) : HttpCall :=
  {| verb := "GET";
     url := "https://www.googleapis.com/youtube/v3/commentThreads";
     params := [("part", JStr "snippet");
                ("allThreadsRelatedToChannelId", JStr channel_id);
                ("textFormat", JStr "plainText")]
               ++ (if is_none token then [] else [("pageToken", token)]);
     headers := [("authorization", "Bearer " +:+ access_token)] |}.

(** the [pageToken] parameter of a call: [None] when it has none *)
Definition page_token (c : HttpCall) : option json := assoc "pageToken" (params c).

(** the events of fetching [pages] one after the other, starting with
    [token] *)
Fixpoint fetch_events `{PyRuntime} (channel_id access_token : string)
    (token : json) (pages : list Page) : list event :=
  match pages with
  | [] => []
  | p :: rest =>
      Http (call_of channel_id access_token token)
        :: map Write (map csv_line (comments p))
        ++ Flush :: fetch_events channel_id access_token (nextPageToken p) rest
  end.

(** position at the end, nothing waiting to be flushed *)
Definition at_end (f : TempFile) : Prop :=
  pending f = EmptyString /\ pos f = String.length (stored f).



(** a printed field free of carriage returns *)
Definition no_cr `{PyRuntime} (c : Comment) : Prop :=
  count_char CR (field_str (publishedAt c)) = O
  /\ count_char CR (field_str (authorDisplayName c)) = O.

(** a printed field free of line breaks of either kind *)
Definition one_line `{PyRuntime} (c : Comment) : Prop :=
  no_cr c
  /\ count_char LF (field_str (publishedAt c)) = O
  /\ count_char LF (field_str (authorDisplayName c)) = O.

(** One call of [list_comments] in closed form: the call it makes, the
    records it writes and how it ends, read off the response. *)
Definition round `{PyRuntime} (api : nat -> Response) (f : TempFile)
    (token : json) (channel_id access_token : string) (tr : World)
    : result (TempFile * NextToken) * World :=
  let r := api (served tr) in
  let tr1 := tr ++ [Http (call_of channel_id access_token token)] in
  if status_code r =? 200 then
    match page_head r with
    | Exn e => (Raise e, tr1)
    | Val (next, items) =>
        match lines_of items with
        | (ls, Some e) => (Raise e, tr1 ++ map Write ls)
        | (ls, None) =>
            (Done (commit {| stored := stored f;
                             pending := pending f +:+ sconcat ls;
                             pos := pos f |},
                   {| nt_token := next; nt_count := Z.of_nat (length ls) |}),
             tr1 ++ map Write ls ++ [Flush])
        end
    end
  else (Raise (APIException (status_code r) (text r)), tr1).

(** The loop of [execute_job] as a relation: [loop_run api limit ch at f
    token total tr k res tr'] says that the loop entered with file [f],
    page token [token], [total] records counted and trace [tr] makes [k]
    calls of [list_comments] and is then left with [res] and trace [tr'];
    [Spin] stands for a loop that is still running. *)
Inductive loop_run `{PyRuntime} (api : nat -> Response) (limit : Z)
    (channel_id access_token : string)
    : TempFile -> json -> Z -> World -> nat -> result string -> World -> Prop :=
| loop_spin f token total tr :
    loop_run api limit channel_id access_token f token total tr 0 Spin tr
| loop_raise f token total tr e tr1 :
    round api f token channel_id access_token tr = (Raise e, tr1) ->
    loop_run api limit channel_id access_token f token total tr 1 (Raise e) tr1
| loop_stop f token total tr f' nt tr1 :
    round api f token channel_id access_token tr = (Done (f', nt), tr1) ->
    stops limit (total + nt_count nt) (nt_token nt) ->
    loop_run api limit channel_id access_token f token total tr 1
      (Done (universal_newlines (stored (commit f')))) (tr1 ++ [Seek 0; Read])
| loop_next f token total tr f' nt tr1 k res tr' :
    round api f token channel_id access_token tr = (Done (f', nt), tr1) ->
    ~ stops limit (total + nt_count nt) (nt_token nt) ->
    loop_run api limit channel_id access_token f' (nt_token nt)
      (total + nt_count nt) tr1 k res tr' ->
    loop_run api limit channel_id access_token f token total tr (S k) res tr'.

(** ** A concrete runtime and concrete servers

    Instances on which the statements below are evaluated.  Bodies are
    written as values and sent as their JSON text, [render]; the runtime
    decodes the texts of a given list of bodies. *)

Fixpoint escape (s : string) : string :=
  match s with
  | EmptyString => EmptyString
  | String c rest =>
      (if Ascii.eqb c DQ then String "\" (str1 DQ)
       else if Ascii.eqb c "\" then "\\"
       else if Ascii.eqb c LF then "\n"
       else if Ascii.eqb c CR then "\r"
       else str1 c) +:+ escape rest
  end.

Fixpoint render (v : json) : string :=
  match v with
  | JNull => "null"
  | JBool b => if b then "true" else "false"
  | JInt z => pretty z
  | JFloat lit => lit
  | JStr s => quoted (escape s)
  | JArr l =>
      "[" +:+
      (fix go (l : list json) : string :=
         match l with
         | [] => EmptyString
         | x :: r => render x +:+
             match r with [] => EmptyString | _ => "," +:+ go r end
         end) l +:+ "]"
  | JObj kv =>
      "{" +:+
      (fix go (kv : list (string * json)) : string :=
         match kv with
         | [] => EmptyString
         | (k, x) :: r => quoted (escape k) +:+ ":" +:+ render x +:+
             match r with [] => EmptyString | _ => "," +:+ go r end
         end) kv +:+ "}"
  end.

Fixpoint digits (s : string) (acc : Z) : option Z :=
  match s with
  | EmptyString => Some acc
  | String c rest =>
      let n := Z.of_nat (nat_of_ascii c) in
      if (48 <=? n) && (n <=? 57) then digits rest (10 * acc + (n - 48))
      else None
  end.

(** decimal numerals with an optional minus sign *)
Definition decimal (s : string) : option Z :=
  match s with
  | EmptyString => None
  | String c rest =>
      if Ascii.eqb c "-" then
        match rest with
        | EmptyString => None
        | _ => Z.opp <$> digits rest 0
        end
      else digits s 0
  end.

(** [str] on scalars; the instances below never print a list or a
    dictionary, for which the JSON text stands in. *)
Definition scalar_str (v : json) : string :=
  match v with
  | JNull => "None"
  | JBool b => if b then "True" else "False"
  | JInt z => pretty z
  | JFloat lit => lit
  | JStr s => s
  | _ => render v
  end.

Definition table_runtime (bodies : list json) : PyRuntime :=
  {| json_loads := fun s => List.find (fun v => String.eqb (render v) s) bodies;
     py_int := decimal;
     py_str := scalar_str |}.

Definition item (p a t : string) : json :=
  JObj [("snippet", JObj [("topLevelComment", JObj [("snippet",
    JObj [("publishedAt", JStr p); ("authorDisplayName", JStr a);
          ("textOriginal", JStr t)])])])].

Definition ok (body : json) : Response :=
  {| status_code := 200; text := render body |}.

Definition serve (rs : list Response) (n : nat) : Response :=
  nth n rs {| status_code := 503; text := "unavailable" |}.

Definition demo_request : Request :=
  {| method := "POST"; query_string := EmptyString; args := ∅;
     form := <["access_token" := "ya29"]> (<["channel_id" := "UC1"]> ∅) |}.

Definition env_limit (s : string) : gmap string string := <["LIMIT" := s]> ∅.

(** two pages, three comments *)
Definition body_a : json :=
  JObj [("nextPageToken", JStr "T1");
        ("items", JArr [item "2023-01-07T00:00:00Z" "ann" "hi";
                        item "2023-01-07T00:01:00Z" "bob" ("a" +:+ String CR (String LF "b"))])].
Definition body_b : json :=
  JObj [("items", JArr [item "2023-01-08T00:00:00Z" "cy" "bye"])].
Definition api_ab : nat -> Response := serve [ok body_a; ok body_b].
Definition rt_ab : PyRuntime := table_runtime [body_a; body_b].

(** a display name with a carriage return *)
Definition body_cr : json :=
  JObj [("items", JArr [item "2023-01-07T00:00:00Z" ("a" +:+ String CR "b") "hi"])].
(** a display name with a line feed *)
Definition body_lf : json :=
  JObj [("items", JArr [item "2023-01-07T00:00:00Z" ("a" +:+ String LF "b") "hi"])].

(** a page without items that names a next page, served for ever *)
Definition body_empty : json :=
  JObj [("nextPageToken", JStr "T"); ("items", JArr [])].
Definition api_empty : nat -> Response := fun _ => ok body_empty.

(** a page whose nextPageToken is there and null *)
Definition body_null : json :=
  JObj [("nextPageToken", JNull);
        ("items", JArr [item "2023-01-08T00:00:00Z" "cy" "bye"])].
Definition api_null : nat -> Response := serve [ok body_null; ok body_null].

(** a high surrogate that stands alone, U+D83D *)
Definition lone_surrogate : string :=
  String "237" (String "160" (String "189" EmptyString)).

(** a page whose second comment has that surrogate in its text *)
Definition body_surrogate : json :=
  JObj [("items", JArr [item "2023-01-08T00:00:00Z" "cy" "bye";
                        item "2023-01-08T00:01:00Z" "di" lone_surrogate])].

(** a first page, then a refusal *)
Definition api_403 : nat -> Response :=
  serve [ok body_a; {| status_code := 403; text := "quotaExceeded" |}].

(** the pages the bodies above decode to *)
Definition comment (p a t : string) : Comment :=
  {| publishedAt := JStr p; authorDisplayName := JStr a; textOriginal := t |}.
Definition page_a : Page :=
  {| comments := [comment "2023-01-07T00:00:00Z" "ann" "hi";
                  comment "2023-01-07T00:01:00Z" "bob"
                    ("a" +:+ String CR (String LF "b"))];
     nextPageToken := JStr "T1" |}.
Definition page_b : Page :=
  {| comments := [comment "2023-01-08T00:00:00Z" "cy" "bye"];
     nextPageToken := JNull |}.
Definition page_cr : Page :=
  {| comments := [comment "2023-01-07T00:00:00Z" ("a" +:+ String CR "b") "hi"];
     nextPageToken := JNull |}.
Definition page_lf : Page :=
  {| comments := [comment "2023-01-07T00:00:00Z" ("a" +:+ String LF "b") "hi"];
     nextPageToken := JNull |}.

(** the same job asked for in another request and another environment *)
Definition other_request : Request :=
  {| method := "PUT"; query_string := "x=1"; args := <["x" := "1"]> ∅;
     form := <["note" := "again"]> (form demo_request) |}.
Definition other_env (s : string) : gmap string string :=
  <["CLIENT_ID" := "id.apps"]> (env_limit s).

(** token endpoint answers *)
Definition body_tokens : json :=
  JObj [("access_token", JStr "ya29"); ("refresh_token", JStr "1//0g")].
Definition body_no_refresh : json := JObj [("access_token", JStr "ya29")].
Definition code_request : Request :=
  {| method := "POST"; query_string := EmptyString; args := ∅;
     form := <["code" := "4/0A"]> ∅ |}.

(** ** The HTTP entry points

    [get_comments] and the functions it dispatches to.  Their templates are
    files that are not part of the source: the file system is a map from
    paths to contents, and formatting a template read from a file is
    library code, as are the messages of the built-in exceptions. *)

(** what [get_comments] can end with beyond the exceptions of the job *)
Inductive handler_exn : Type :=
| Core (e : exn)
| FileNotFoundError (path : string)
| UnicodeDecodeError.

Inductive outcome (A : Type) : Type :=
| Ret (a : A)
| Throw (e : handler_exn)
| Going.
Arguments Ret {A} a.
Arguments Throw {A} e.
Arguments Going {A}.

Definition Web (A : Type) : Type := World -> outcome A * World.

#[global] Instance Web_ret : MRet Web := fun A a w => (Ret a, w).
#[global] Instance Web_bind : MBind Web := fun A B k m w =>
  match m w with
  | (Ret a, w') => k a w'
  | (Throw e, w') => (Throw e, w')
  | (Going, w') => (Going, w')
  end.

Definition throw {A : Type} (e : handler_exn) : Web A := fun w => (Throw e, w).

(** the job's code run inside a handler *)
Definition core {A : Type} (m : M A) : Web A := fun w =>
  match m w with
  | (Done a, w') => (Ret a, w')
  | (Raise e, w') => (Throw (Core e), w')
  | (Spin, w') => (Going, w')
  end.

Definition hlift {A : Type} (r : pyres A) : Web A :=
  match r with
  | Val a => mret a
  | Exn e => throw (Core e)
  end.

(** [str_format] is [template.format] with keyword arguments on a template
    of unknown content, [exc_str] is [str] on a built-in exception. *)
Class WebRuntime : Type := {
  str_format : string -> list (string * json) -> pyres string;
  exc_str : exn -> string
}.

(** [fmt.format] with keyword arguments, for templates whose replacement
    fields are plain names, as are those of the source; [field] is the
    name being read.  Doubled braces stand for one brace. *)
Fixpoint format_kw `{PyRuntime} (fmt : string) (field : option string)
    (kw : list (string * json)) : pyres string :=
  match fmt with
  | EmptyString =>
      match field with
      | None => Val EmptyString
      | Some _ => Exn ValueError
      end
  | String c rest =>
      match field with
      | Some name =>
          if Ascii.eqb c RBRACE then
            match name with
            | EmptyString => Exn IndexError
            | _ =>
                match assoc name kw with
                | Some v => r ← format_kw rest None kw; Val (field_str v +:+ r)
                | None => Exn (KeyError name)
                end
            end
          else if Ascii.eqb c LBRACE then Exn ValueError
          else format_kw rest (Some (name +:+ str1 c)) kw
      | None =>
          if Ascii.eqb c LBRACE then
            match rest with
            | String d rest' =>
                if Ascii.eqb d LBRACE then
                  r ← format_kw rest' None kw; Val (String LBRACE r)
                else format_kw rest (Some EmptyString) kw
            | EmptyString => Exn ValueError
            end
          else if Ascii.eqb c RBRACE then
            match rest with
            | String d rest' =>
                if Ascii.eqb d RBRACE then
                  r ← format_kw rest' None kw; Val (String RBRACE r)
                else Exn ValueError
            | EmptyString => Exn ValueError
            end
          else r ← format_kw rest None kw; Val (String c r)
      end
  end.

(** the message [APIException.__init__] hands to [Exception] *)
Definition API_MESSAGE : string :=
  "APIの呼出でエラーが発生しました。status:{code}, message{text}".

Definition api_message `{PyRuntime} (code : Z) (text : string) : pyres string :=
  format_kw API_MESSAGE None [("code", JInt code); ("text", JStr text)].

(** [str(e)] *)
Definition exn_message `{PyRuntime} `{WebRuntime} (e : exn) : pyres string :=
  match e with
  | APIException code text => api_message code text
  | _ => Val (exc_str e)
  end.

(** [len] of the decoded text: the bytes that are not continuation bytes *)
Fixpoint code_points (s : string) : nat :=
  match s with
  | EmptyString => O
  | String c rest =>
      ((if (N_of_ascii c <? 128)%N || (192 <=? N_of_ascii c)%N then 1 else 0)
       + code_points rest)%nat
  end.

(** the object [make_response()] gives and the handler fills in:
    [set_headers] are the headers the handler has assigned, on top of those
    of the framework *)
Record FlaskResponse : Type := {
  data : string;
  set_headers : gmap string string
}.

Definition make_response : FlaskResponse :=
  {| data := EmptyString; set_headers := ∅ |}.

(** [response.data = value]: the text is stored as its UTF-8 encoding, and
    a text that has none raises [UnicodeEncodeError] *)
Definition set_data (response : FlaskResponse) (value : string)
    : pyres FlaskResponse :=
  if utf8_valid value then
    Val {| data := value; set_headers := set_headers response |}
  else Exn UnicodeEncodeError.

(** [response.headers[key] = value]: a value with a carriage return or a
    line feed in it is refused with [ValueError] *)
Definition set_header (response : FlaskResponse) (key value : string)
    : pyres FlaskResponse :=
  if Nat.eqb (count_char CR value + count_char LF value) 0 then
    Val {| data := data response;
           set_headers := <[key := value]> (set_headers response) |}
  else Exn ValueError.

(** what a handler returns: a page, or a response object *)
Inductive view : Type :=
| Html (html : string)
| Resp (r : FlaskResponse).

(** [open(path, 'r')] and [f.read()] *)
Definition read_file (files : gmap string string) (path : string) : Web string :=
  match files !! path with
  | Some content => mret (universal_newlines content)
  | None => throw (FileNotFoundError path)
  end.

Section EntryPoints.
Context `{PyRuntime} `{WebRuntime}.
Variable api : nat -> Response.
Variable environ : gmap string string.
Variable files : gmap string string.

Definition handle_init_access : Web view :=
  template ← read_file files "./init.html";
  page ← hlift (str_format template
                  [("client_id", environ_get environ "CLIENT_ID");
                   ("limit", environ_get environ "LIMIT");
                   ("redirect_uri", environ_get environ "REDIRECT_URI")]);
  mret (Html page).

Definition handle_login (request : Request) : Web view :=
  template ← read_file files "./login.html";
  let client_id := environ_get environ "CLIENT_ID" in
  let client_secret := environ_get environ "CLIENT_SECRET" in
  let redirect_uri := environ_get environ "REDIRECT_URI" in
  code ← hlift (match args request !! "code" with
                | Some v => Val v
                | None => Exn (KeyError "code")
                end);
  page ← hlift (str_format template
                  [("client_id", client_id); ("client_secret", client_secret);
                   ("code", JStr code); ("redirect_uri", redirect_uri)]);
  mret (Html page).

Definition handle_token (request : Request) : Web view :=
  tokens ← core (get_tokens api environ request);
  template ← read_file files "./form.html";
  page ← hlift (str_format template
                  [("access_token", access_token tokens);
                   ("message", JStr (message tokens));
                   ("redirect_uri", environ_get environ "REDIRECT_URI")]);
  mret (Html page).

Definition do_get (request : Request) : Web view :=
  if utf8_valid (query_string request) then
    if Nat.eqb (code_points (query_string request)) 0 then handle_init_access
    else handle_login request
  else throw UnicodeDecodeError.

(** The [except Exception as e] block of [do_post], entered with the
    response as the [try] block left it, followed by the [finally] block:
    whatever the handler raises, the response is returned as it then is. *)
Definition on_error (request : Request) (response : FlaskResponse) (e : exn)
    : Web view :=
  match files !! "./form.html" with
  | None => mret (Resp response)
  | Some content =>
      let template := universal_newlines content in
      match (a ← form_get request "access_token";
             m ← exn_message e;
             page ← str_format template
                      [("access_token", JStr a); ("message", JStr m)];
             set_data response page) with
      | Exn _ => mret (Resp response)
      | Val response =>
          match set_header response "Content-Type" "text/html" with
          | Exn _ => mret (Resp response)
          | Val response => mret (Resp response)
          end
      end
  end.

(** The statements of the [try] block of [do_post] that follow the job,
    which has returned [csv]: the response as they leave it, and the
    exception that ended them early. *)
Definition fill_response (request : Request) (response : FlaskResponse)
    (csv : string) : FlaskResponse * option exn :=
  match set_data response csv with
  | Exn e => (response, Some e)
  | Val response =>
      match set_header response "Content-Type" "application/octet-stream" with
      | Exn e => (response, Some e)
      | Val response =>
          match (c ← form_get request "channel_id";
                 disposition ← py_format "attachment; filename=comment_{}.csv"
                                 [JStr c];
                 set_header response "Content-Disposition" disposition) with
          | Exn e => (response, Some e)
          | Val response => (response, None)
          end
      end
  end.

Definition do_post (fuel : nat) (request : Request) : Web view :=
  if bool_decide (is_Some (form request !! "channel_id")) then
    let response := make_response in
    fun w =>
      match execute_job api fuel environ request w with
      | (Done csv, w1) =>
          match fill_response request response csv with
          | (response, None) => (Ret (Resp response), w1)
          | (response, Some e) => on_error request response e w1
          end
      | (Raise e, w1) => on_error request response e w1
      | (Spin, w1) => (Going, w1)
      end
  else handle_token request.

Definition get_comments (fuel : nat) (request : Request) : Web view :=
  if String.eqb (method request) "GET" then do_get request
  else do_post fuel request.

End EntryPoints.

(** well-formed pages of one comment each, served for ever *)
Definition api_b_forever : nat -> Response :=
  fun _ => ok (JObj [("nextPageToken", JStr "T");
                     ("items", JArr [item "2023-01-08T00:00:00Z" "cy" "bye"])]).
Definition rt_b_forever : PyRuntime :=
  table_runtime [JObj [("nextPageToken", JStr "T");
                       ("items", JArr [item "2023-01-08T00:00:00Z" "cy" "bye"])]].

(** a page whose second item has no comment in it *)
Definition body_bad_item : json :=
  JObj [("items", JArr [item "2023-01-08T00:00:00Z" "cy" "bye";
                        JObj [("snippet", JObj [])]])].

(** templates and the messages of the instances *)
Definition web_demo : WebRuntime :=
  {| str_format := fun t kw => @format_kw rt_ab t None kw;
     exc_str := fun e => match e with
                         | KeyError k => "'" +:+ k +:+ "'"
                         | _ => EmptyString
                         end |}.
Definition demo_files : gmap string string :=
  <["./form.html" := "<p>{message}</p><input value={access_token}>"]>
    (<["./init.html" := "<a href=auth?client_id={client_id}>{limit}</a>"]>
       (<["./login.html" := "<form>{code}</form>"]> ∅)).
Definition get_request (q : string) : Request :=
  {| method := "GET"; query_string := q; args := ∅; form := ∅ |}.
Definition no_token_request : Request :=
  {| method := "POST"; query_string := EmptyString; args := ∅;
     form := <["channel_id" := "UC1"]> ∅ |}.

(** * Properties *)

(** ** Strings *)

Lemma app_cons c s t : String c s +:+ t = String c (s +:+ t).
Proof. reflexivity. Qed.

Lemma app_empty_l s : EmptyString +:+ s = s.
Proof. reflexivity. Qed.

Lemma app_empty_r s : s +:+ EmptyString = s.
Proof. induction s as [|c s IH]; [reflexivity|]. now rewrite app_cons, IH. Qed.

Lemma app_assoc' s t u : (s +:+ t) +:+ u = s +:+ t +:+ u.
Proof. induction s as [|c s IH]; [reflexivity|]. now rewrite !app_cons, IH. Qed.

Lemma slength_app s t :
  String.length (s +:+ t) = (String.length s + String.length t)%nat.
Proof. induction s as [|c s IH]; [reflexivity|]. rewrite app_cons. simpl. now rewrite IH. Qed.

Lemma stake_app s t : stake (String.length s) (s +:+ t) = s.
Proof. induction s as [|c s IH]; [now destruct t|]. rewrite app_cons. simpl. now rewrite IH. Qed.

Lemma stake_all s : stake (String.length s) s = s.
Proof. rewrite <- (app_empty_r s) at 2. apply stake_app. Qed.

Lemma sdrop_past s n : sdrop (String.length s + n) s = EmptyString.
Proof. induction s as [|c s IH]; [now destruct n|]. simpl. exact IH. Qed.

Lemma sdrop_0 s : sdrop 0 s = s.
Proof. now destruct s. Qed.

(** writing at the end of the text appends *)
Lemma overwrite_end s p : overwrite s (String.length s) p = s +:+ p.
Proof.
  unfold overwrite. rewrite stake_all, sdrop_past. now rewrite app_empty_r.
Qed.

Lemma sconcat_app l1 l2 : sconcat (l1 ++ l2) = sconcat l1 +:+ sconcat l2.
Proof.
  induction l1 as [|s l1 IH]; [reflexivity|].
  simpl. now rewrite IH, app_assoc'.
Qed.

Lemma count_char_app c s t :
  count_char c (s +:+ t) = (count_char c s + count_char c t)%nat.
Proof.
  induction s as [|d s IH]; [reflexivity|].
  rewrite app_cons. simpl. rewrite IH. lia.
Qed.

(** ** Texts with a UTF-8 encoding *)

Lemma utf8_scan_start s lo hi : utf8_scan s 0 lo hi = utf8_valid s.
Proof. destruct s; reflexivity. Qed.

Ltac scan_cases :=
  repeat match goal with
         | |- context [if ?b then _ else _] => destruct b eqn:?
         end.

(** a text that ends where a character ends can be continued by any
    text *)
Lemma utf8_scan_app a b : forall k lo hi,
  utf8_scan a k lo hi = true -> utf8_scan (a +:+ b) k lo hi = utf8_valid b.
Proof.
  induction a as [|c a IH]; intros k lo hi.
  - cbn [utf8_scan]. intros Hk. apply Nat.eqb_eq in Hk as ->.
    apply utf8_scan_start.
  - rewrite app_cons. cbn [utf8_scan]. cbv zeta.
    destruct k as [|k]; scan_cases; intros Ha; try discriminate; now apply IH.
Qed.

Lemma utf8_valid_app a b :
  utf8_valid a = true -> utf8_valid b = true -> utf8_valid (a +:+ b) = true.
Proof.
  intros Ha Hb. unfold utf8_valid at 1. now rewrite (utf8_scan_app a b _ _ _ Ha).
Qed.

Lemma utf8_valid_sconcat ls :
  Forall (fun l => utf8_valid l = true) ls -> utf8_valid (sconcat ls) = true.
Proof.
  induction 1 as [|l ls Hl _ IH]; [reflexivity|].
  cbn [sconcat]. now apply utf8_valid_app.
Qed.

(** a character of one byte cannot stand where a continuation byte is
    due *)
Lemma utf8_scan_ascii c s k lo hi :
  (N_of_ascii c < 128)%N -> (128 <= lo)%N ->
  utf8_scan (String c s) k lo hi = true ->
  k = O /\ utf8_valid s = true.
Proof.
  intros Hc Hlo. cbn [utf8_scan]. cbv zeta. destruct k as [|k].
  - apply N.ltb_lt in Hc. rewrite Hc. auto.
  - destruct (N.leb_spec lo (N_of_ascii c)); [lia|]. discriminate.
Qed.

Lemma utf8_valid_ascii c s :
  (N_of_ascii c < 128)%N -> utf8_valid (String c s) = utf8_valid s.
Proof.
  intros Hc. unfold utf8_valid at 1. cbn [utf8_scan]. cbv zeta.
  apply N.ltb_lt in Hc. now rewrite Hc.
Qed.

(** replacing a character of one byte by a text keeps the encoding *)
Lemma utf8_scan_replace old new s :
  (N_of_ascii old < 128)%N -> utf8_valid new = true ->
  forall k lo hi, (128 <= lo)%N ->
    utf8_scan s k lo hi = true ->
    utf8_scan (replace_char old new s) k lo hi = true.
Proof.
  intros Hold Hnew. induction s as [|c s IH]; intros k lo hi Hlo; [auto|].
  cbn [replace_char]. destruct (Ascii.eqb_spec c old) as [->|_].
  - intros Hs. apply utf8_scan_ascii in Hs as [-> Hs]; [|assumption..].
    rewrite utf8_scan_app by now rewrite utf8_scan_start.
    unfold utf8_valid. apply IH; [lia|exact Hs].
  - cbn [utf8_scan]. cbv zeta.
    destruct k as [|k]; scan_cases; intros Hs; try discriminate;
      (apply IH; [lia|exact Hs]).
Qed.

Lemma utf8_valid_replace old new s :
  (N_of_ascii old < 128)%N -> utf8_valid new = true ->
  utf8_valid s = true -> utf8_valid (replace_char old new s) = true.
Proof.
  intros Hold Hnew. apply utf8_scan_replace; [assumption..|lia].
Qed.

(** reading with the line endings translated keeps the encoding *)
Lemma utf8_scan_universal n : forall s k lo hi,
  (String.length s <= n)%nat -> (128 <= lo)%N ->
  utf8_scan s k lo hi = true ->
  utf8_scan (universal_newlines s) k lo hi = true.
Proof.
  induction n as [|n IH]; intros [|c s] k lo hi Hlen Hlo; auto;
    try (simpl in Hlen; lia).
  simpl in Hlen. cbn [universal_newlines].
  destruct (Ascii.eqb_spec c CR) as [->|_].
  - intros Hs. apply utf8_scan_ascii in Hs as [-> Hs]; [|reflexivity|assumption].
    rewrite utf8_scan_start, utf8_valid_ascii by reflexivity.
    destruct s as [|d s]; [reflexivity|]. simpl in Hlen.
    destruct (Ascii.eqb_spec d LF) as [->|_].
    + rewrite utf8_valid_ascii in Hs by reflexivity.
      apply IH; [lia|lia|exact Hs].
    + apply IH; [simpl; lia|lia|exact Hs].
  - cbn [utf8_scan]. cbv zeta.
    destruct k as [|k]; scan_cases; intros Hs; try discriminate;
      (apply IH; [lia|lia|exact Hs]).
Qed.

Lemma utf8_valid_universal s :
  utf8_valid s = true -> utf8_valid (universal_newlines s) = true.
Proof.
  apply (utf8_scan_universal (String.length s)); [reflexivity|lia].
Qed.

(** ** Traces *)

Lemma calls_app tr1 tr2 : calls (tr1 ++ tr2) = calls tr1 ++ calls tr2.
Proof.
  induction tr1 as [|e tr1 IH]; [reflexivity|].
  destruct e; simpl; rewrite IH; reflexivity.
Qed.

Lemma calls_writes ls : calls (map Write ls) = [].
Proof. induction ls as [|l ls IH]; [reflexivity|exact IH]. Qed.

Lemma served_app tr1 tr2 : served (tr1 ++ tr2) = (served tr1 + served tr2)%nat.
Proof. unfold served. now rewrite calls_app, length_app. Qed.



(** ** Records *)

Section Records.
Context `{PyRuntime}.

Lemma format_bearer s :
  py_format "Bearer {}" [JStr s] = Val ("Bearer " +:+ s).
Proof. cbn. now rewrite app_empty_r. Qed.

Lemma format_record p a t :
  py_format RECORD_FORMAT [p; a; JStr t]
  = Val (quoted (field_str p) +:+ "," +:+ quoted (field_str a) +:+ ","
         +:+ quoted t +:+ str1 LF).
Proof.
  cbn. unfold quoted, str1. f_equal.
  rewrite !app_cons, !app_assoc', !app_cons, !app_empty_l. reflexivity.
Qed.

(** the record of an item is the CSV line of the comment it holds *)
Lemma record_of_comment item line :
  record_of item = Val line
  <-> exists c, comment_of item = Some c /\ line = csv_line c.
Proof.
  unfold record_of, comment_of, csv_line.
  destruct (_ ← py_getitem item "snippet"; _) as [snippet|e]; cbn;
    [|split; [discriminate|intros (c & [=] & _)]].
  destruct (py_getitem snippet "textOriginal") as [[]|]; cbn;
    try (split; [discriminate|intros (c & [=] & _)]).
  destruct (py_getitem snippet "publishedAt") as [p|]; cbn;
    try (split; [discriminate|intros (c & [=] & _)]).
  destruct (py_getitem snippet "authorDisplayName") as [a|]; cbn;
    try (split; [discriminate|intros (c & [=] & _)]).
  fold RECORD_FORMAT. rewrite format_record. split.
  - intros [= <-]. eexists. split; [reflexivity|]. reflexivity.
  - intros (c & [= <-] & ->). reflexivity.
Qed.

(** a record has a UTF-8 encoding when the three fields of its comment
    have one *)
Lemma encodable_fields c :
  utf8_valid (field_str (publishedAt c)) = true ->
  utf8_valid (field_str (authorDisplayName c)) = true ->
  utf8_valid (textOriginal c) = true ->
  encodable c.
Proof.
  intros Hp Ha Ht.
  assert (forall s, utf8_valid s = true -> utf8_valid (quoted s) = true) as Hq.
  { intros s Hs. unfold quoted. rewrite utf8_valid_ascii by reflexivity.
    now apply utf8_valid_app. }
  unfold encodable, csv_line.
  apply utf8_valid_app; [now apply Hq|].
  apply utf8_valid_app; [reflexivity|].
  apply utf8_valid_app; [now apply Hq|].
  apply utf8_valid_app; [reflexivity|].
  apply utf8_valid_app; [|reflexivity].
  apply Hq. unfold transformed.
  apply utf8_valid_replace; [reflexivity..|].
  now apply utf8_valid_replace.
Qed.

Lemma lines_of_comments items cs :
  comments_of items = Some cs -> Forall encodable cs ->
  lines_of items = (map csv_line cs, None).
Proof.
  revert cs. induction items as [|item items IH]; intros cs; simpl.
  - intros [= <-] _. reflexivity.
  - destruct (comment_of item) as [c|] eqn:Hc; [|discriminate].
    destruct (comments_of items) as [cs'|]; [|discriminate].
    intros [= <-] Henc. apply Forall_cons in Henc as [Hone Henc].
    assert (record_of item = Val (csv_line c)) as ->
      by (apply record_of_comment; eauto).
    unfold encodable in Hone. rewrite Hone.
    rewrite (IH cs' eq_refl Henc). reflexivity.
Qed.

Lemma comments_of_lines items ls :
  lines_of items = (ls, None) ->
  exists cs, comments_of items = Some cs /\ ls = map csv_line cs
             /\ Forall encodable cs.
Proof.
  revert ls. induction items as [|item items IH]; intros ls; simpl.
  - intros [= <-]. now exists [].
  - destruct (record_of item) as [line|e] eqn:Hr; [|discriminate].
    apply record_of_comment in Hr as (c & -> & ->).
    destruct (utf8_valid (csv_line c)) eqn:Hv; [|discriminate].
    destruct (lines_of items) as [ls' oe]. intros [= <- ->].
    destruct (IH ls' eq_refl) as (cs & -> & -> & Henc).
    exists (c :: cs). repeat split. now constructor.
Qed.

Lemma lines_of_unencodable items cs :
  comments_of items = Some cs -> ~ Forall encodable cs ->
  exists ls, lines_of items = (ls, Some UnicodeEncodeError).
Proof.
  revert cs. induction items as [|item items IH]; intros cs; simpl.
  - intros [= <-] Hno. destruct Hno. constructor.
  - destruct (comment_of item) as [c|] eqn:Hc; [|discriminate].
    destruct (comments_of items) as [cs'|]; [|discriminate].
    intros [= <-] Hno.
    assert (record_of item = Val (csv_line c)) as ->
      by (apply record_of_comment; eauto).
    destruct (utf8_valid (csv_line c)) eqn:Hv; [|eauto].
    destruct (IH cs' eq_refl) as [ls ->]; [|eauto].
    intros Hall. apply Hno. now constructor.
Qed.

(** the loop ends at the first item that makes no record or whose record
    has no UTF-8 encoding, the records before it written *)
Lemma lines_of_stop good bad rest cs :
  comments_of good = Some cs -> Forall encodable cs ->
  lines_of (good ++ bad :: rest)
  = match record_of bad with
    | Exn e => (map csv_line cs, Some e)
    | Val line =>
        if utf8_valid line then
          let '(ls, oe) := lines_of rest in (map csv_line cs ++ line :: ls, oe)
        else (map csv_line cs, Some UnicodeEncodeError)
    end.
Proof.
  revert cs. induction good as [|g good IH]; intros cs; simpl.
  - intros [= <-] _. destruct (record_of bad) as [line|e]; [|reflexivity].
    destruct (utf8_valid line); [|reflexivity].
    now destruct (lines_of rest).
  - destruct (comment_of g) as [c|] eqn:Hc; [|discriminate].
    destruct (comments_of good) as [cs'|]; [|discriminate].
    intros [= <-] Henc. apply Forall_cons in Henc as [Hone Henc].
    assert (record_of g = Val (csv_line c)) as ->
      by (apply record_of_comment; eauto).
    unfold encodable in Hone. rewrite Hone, (IH cs' eq_refl Henc).
    destruct (record_of bad) as [line|e]; [|reflexivity].
    destruct (utf8_valid line); [|reflexivity].
    now destruct (lines_of rest).
Qed.

End Records.

(** ** One call of [list_comments] *)

Section Round.
Context `{PyRuntime}.
Variable api : nat -> Response.

Lemma bind_M {A B} (m : M A) (k : A -> M B) w :
  (m ≫= k) w = match m w with
               | (Done a, w') => k a w'
               | (Raise e, w') => (Raise e, w')
               | (Spin, w') => (Spin, w')
               end.
Proof. reflexivity. Qed.

Lemma bind_lift {A B} (r : pyres A) (k : A -> M B) w :
  (lift r ≫= k) w = match r with
                    | Val a => k a w
                    | Exn e => (Raise e, w)
                    end.
Proof. now destruct r. Qed.

Lemma f_write_eq f s tr :
  f_write f s tr
  = if utf8_valid s then
      (Done {| stored := stored f; pending := pending f +:+ s; pos := pos f |},
       tr ++ [Write s])
    else (Raise UnicodeEncodeError, tr).
Proof. unfold f_write. now destruct (utf8_valid s). Qed.

Lemma f_flush_eq f tr : f_flush f tr = (Done (commit f), tr ++ [Flush]).
Proof. reflexivity. Qed.

Lemma write_items_lines items f n tr :
  write_items items f n tr
  = match lines_of items with
    | (ls, None) =>
        (Done ({| stored := stored f; pending := pending f +:+ sconcat ls;
                  pos := pos f |}, n + Z.of_nat (length ls)),
         tr ++ map Write ls)
    | (ls, Some e) => (Raise e, tr ++ map Write ls)
    end.
Proof.
  revert f n tr. induction items as [|item items IH]; intros f n tr; simpl.
  - rewrite app_empty_r, Z.add_0_r, app_nil_r. now destruct f.
  - rewrite bind_lift. destruct (record_of item) as [line|e].
    + rewrite bind_M, f_write_eq.
      destruct (utf8_valid line); [|now rewrite app_nil_r].
      rewrite IH. cbn.
      destruct (lines_of items) as [ls [e|]]; cbn;
        rewrite <- ?app_assoc; [reflexivity|].
      rewrite app_assoc'. do 3 f_equal. lia.
    + now rewrite app_nil_r.
Qed.

Lemma page_head_unfold r :
  page_head r
  = (result ← loads (text r);
     has ← py_contains "nextPageToken" result;
     next ← (if has : bool then py_getitem result "nextPageToken" else Val JNull);
     items ← (l ← py_getitem result "items"; py_iter l);
     Val (next, items)).
Proof.
  unfold page_head, next_of. destruct (loads (text r)); cbn; [|reflexivity].
  destruct (py_contains _ _); reflexivity.
Qed.

(** [list_comments] is its closed form *)
Lemma list_comments_round f token channel_id access_token tr :
  list_comments api f token channel_id access_token tr
  = round api f token channel_id access_token tr.
Proof.
  unfold list_comments, round. rewrite bind_lift, format_bearer.
  rewrite bind_M. cbn -[page_head lines_of write_items].
  assert (([("part", JStr "snippet");
            ("allThreadsRelatedToChannelId", JStr channel_id);
            ("textFormat", JStr "plainText")]
           ++ (if is_none token then [] else [("pageToken", token)]))
          = (if is_none token
             then [("part", JStr "snippet");
                   ("allThreadsRelatedToChannelId", JStr channel_id);
                   ("textFormat", JStr "plainText")]
             else [("part", JStr "snippet");
                   ("allThreadsRelatedToChannelId", JStr channel_id);
                   ("textFormat", JStr "plainText")] ++ [("pageToken", token)]))
    as Hp by now destruct (is_none token).
  unfold call_of. rewrite Hp. clear Hp.
  set (tr1 := tr ++ [Http _]).
  destruct (status_code (api (served tr)) =? 200); [|reflexivity].
  rewrite page_head_unfold, bind_lift.
  destruct (loads _) as [result|e]; cbn -[lines_of write_items]; [|reflexivity].
  rewrite bind_lift.
  destruct (py_contains _ _) as [has|e]; cbn -[lines_of write_items]; [|reflexivity].
  rewrite bind_lift.
  destruct (if has then _ else _) as [next|e]; cbn -[lines_of write_items]; [|reflexivity].
  rewrite bind_lift.
  destruct (_ ← py_getitem result "items"; _) as [items|e];
    cbn -[lines_of write_items]; [|reflexivity].
  rewrite bind_M, write_items_lines.
  destruct (lines_of items) as [ls [e|]]; [reflexivity|].
  rewrite bind_M, f_flush_eq. cbn. rewrite <- app_assoc. reflexivity.
Qed.

Lemma f_seek_eq f n tr :
  f_seek f n tr
  = (Done {| stored := stored (commit f); pending := EmptyString; pos := n |},
     tr ++ [Seek n]).
Proof. reflexivity. Qed.

Lemma f_read_eq f tr :
  f_read f tr
  = (Done ({| stored := stored (commit f); pending := EmptyString;
              pos := String.length (stored (commit f)) |},
           universal_newlines (sdrop (pos (commit f)) (stored (commit f)))),
     tr ++ [Read]).
Proof. reflexivity. Qed.

Lemma read_after_seek f tr :
  (f_seek f 0 ≫= λ fp, f_read fp ≫= λ '(_, data), mret data) tr
  = (Done (universal_newlines (stored (commit f))), tr ++ [Seek 0; Read]).
Proof.
  rewrite bind_M, f_seek_eq, bind_M, f_read_eq. cbn -[universal_newlines commit].
  rewrite <- app_assoc. unfold commit at 1 2. unfold overwrite at 1.
  cbn -[universal_newlines commit]. rewrite ?sdrop_0, ?app_empty_l.
  reflexivity.
Qed.

(** one round of the loop *)
Lemma fetch_loop_S fuel limit channel_id access_token fp token total tr :
  fetch_loop api (S fuel) limit channel_id access_token fp token total tr
  = match round api fp token channel_id access_token tr with
    | (Done (fp', nt), tr1) =>
        let total' := total + nt_count nt in
        let token' := if total' <=? limit then nt_token nt else JNull in
        if is_none token' then
          (Done (universal_newlines (stored (commit fp'))),
           tr1 ++ [Seek 0; Read])
        else fetch_loop api fuel limit channel_id access_token fp' token' total' tr1
    | (Raise e, tr1) => (Raise e, tr1)
    | (Spin, tr1) => (Spin, tr1)
    end.
Proof.
  simpl. rewrite bind_M, list_comments_round.
  destruct (round _ _ _ _ _ _) as [[[fp' nt]|e|] tr1]; try reflexivity.
  cbn -[f_seek f_read]. destruct (is_none _); [|reflexivity].
  apply read_after_seek.
Qed.

End Round.

(** ** The scratch file *)

Lemma is_none_true v : is_none v = true <-> v = JNull.
Proof. destruct v; simpl; split; congruence. Qed.

Lemma is_none_false v : is_none v = false <-> v <> JNull.
Proof. destruct v; simpl; split; congruence. Qed.

Lemma at_end_new : at_end TemporaryFile.
Proof. split; reflexivity. Qed.

Lemma commit_append f p :
  at_end f ->
  commit {| stored := stored f; pending := pending f +:+ p; pos := pos f |}
  = {| stored := stored f +:+ p; pending := EmptyString;
       pos := String.length (stored f +:+ p) |}.
Proof.
  intros [Hp Hq]. unfold commit. cbn. rewrite Hp, Hq, app_empty_l.
  now rewrite overwrite_end, slength_app.
Qed.

Lemma commit_at_end f : at_end f -> commit f = f.
Proof.
  intros [Hp Hq]. destruct f as [s p n]. cbn in *. subst. unfold commit. cbn.
  now rewrite overwrite_end, app_empty_r, Nat.add_0_r.
Qed.

(** ** Runs that fetch well-formed pages *)

Section Runs.
Context `{PyRuntime}.
Variable api : nat -> Response.

Lemma lines_of_length items ls :
  lines_of items = (ls, None) -> length ls = length items.
Proof.
  revert ls. induction items as [|item items IH]; intros ls; simpl.
  - now intros [= <-].
  - destruct (record_of item) as [line|]; [|discriminate].
    destruct (utf8_valid line); [|discriminate].
    destruct (lines_of items) as [ls' oe]. intros [= <- ->].
    simpl. now rewrite (IH ls' eq_refl).
Qed.

Lemma comments_of_length items cs :
  comments_of items = Some cs -> length cs = length items.
Proof.
  revert cs. induction items as [|item items IH]; intros cs; simpl.
  - now intros [= <-].
  - destruct (comment_of item); [|discriminate].
    destruct (comments_of items) as [cs'|]; [|discriminate].
    intros [= <-]. simpl. now rewrite (IH cs' eq_refl).
Qed.

Lemma decode_page_size r p :
  decode_page r = Some p -> page_size r = length (comments p).
Proof.
  unfold decode_page, page_size. destruct (status_code r =? 200); [|discriminate].
  destruct (page_head r) as [[next items]|]; [|discriminate].
  destruct (comments_of items) as [cs|] eqn:Hc; [|discriminate].
  intros [= <-]. cbn. symmetry. now apply comments_of_length.
Qed.

(** a round on a well-formed page *)
Lemma round_page f token channel_id access_token tr p :
  decode_page (api (served tr)) = Some p -> Forall encodable (comments p) ->
  round api f token channel_id access_token tr
  = (Done (commit {| stored := stored f;
                     pending := pending f +:+ csv (comments p);
                     pos := pos f |},
           {| nt_token := nextPageToken p;
              nt_count := Z.of_nat (length (comments p)) |}),
     tr ++ Http (call_of channel_id access_token token)
        :: map Write (map csv_line (comments p)) ++ [Flush]).
Proof.
  unfold decode_page, round.
  destruct (status_code _ =? 200); [|discriminate].
  destruct (page_head _) as [[next items]|]; [|discriminate].
  destruct (comments_of items) as [cs|] eqn:Hc; [|discriminate].
  intros [= <-] Henc. cbn in *. rewrite (lines_of_comments _ _ Hc Henc).
  rewrite length_map, <- app_assoc. reflexivity.
Qed.

(** a round on a page with a record that cannot be encoded *)
Lemma round_unencodable f token channel_id access_token tr p :
  decode_page (api (served tr)) = Some p -> ~ Forall encodable (comments p) ->
  exists tr1,
    round api f token channel_id access_token tr = (Raise UnicodeEncodeError, tr1).
Proof.
  unfold decode_page, round.
  destruct (status_code _ =? 200); [|discriminate].
  destruct (page_head _) as [[next items]|]; [|discriminate].
  destruct (comments_of items) as [cs|] eqn:Hc; [|discriminate].
  intros [= <-] Hno. cbn in Hno.
  destruct (lines_of_unencodable _ _ Hc Hno) as [ls ->]. eauto.
Qed.

Lemma csv_app cs1 cs2 : csv (cs1 ++ cs2) = csv cs1 +:+ csv cs2.
Proof. unfold csv. now rewrite map_app, sconcat_app. Qed.

Lemma stops_token limit total next :
  stops limit total next
  <-> is_none (if total <=? limit then next else JNull) = true.
Proof.
  unfold stops. destruct (Z.leb_spec total limit); rewrite ?is_none_true.
  - split; [intros [?|?]; [assumption|lia]|tauto].
  - split; [reflexivity|right; assumption].
Qed.

(** A run over well-formed pages returns what the file holds once they
    are written, and its events are those of fetching them in turn. *)
Lemma fetch_loop_run limit channel_id access_token n total pages :
  fetch_run api limit n total pages ->
  Forall encodable (all_comments pages) ->
  forall fuel f token tr,
    served tr = n -> at_end f -> (length pages <= fuel)%nat ->
    fetch_loop api fuel limit channel_id access_token f token total tr
    = (Done (universal_newlines (stored f +:+ csv (all_comments pages))),
       tr ++ fetch_events channel_id access_token token pages
          ++ [Seek 0; Read]).
Proof.
  induction 1 as [n total p Hd Hs|n total p ps Hd Hs Hr IH];
    intros Henc fuel f token tr Hn Hf Hfuel;
    unfold all_comments in Henc; cbn [map concat] in Henc;
    apply Forall_app in Henc as [Hp Hps];
    (destruct fuel as [|fuel]; [simpl in Hfuel; lia|]);
    rewrite fetch_loop_S; subst n; rewrite (round_page _ _ _ _ _ _ Hd Hp);
    cbn -[fetch_loop universal_newlines commit csv all_comments fetch_events];
    rewrite (commit_append _ _ Hf).
  - apply stops_token in Hs. rewrite Hs.
    rewrite commit_at_end by (split; reflexivity).
    change (all_comments [p]) with (comments p ++ []).
    rewrite app_nil_r. cbn -[universal_newlines csv]. f_equal.
    now rewrite <- app_assoc.
  - destruct (is_none _) eqn:Hi; [apply stops_token in Hi; contradiction|].
    assert (nextPageToken p <> JNull /\
            total + Z.of_nat (length (comments p)) <= limit) as [Hne Hle].
    { unfold stops in Hs. split; [tauto|lia]. }
    assert ((total + Z.of_nat (length (comments p)) <=? limit) = true) as ->
      by now apply Z.leb_le.
    rewrite IH.
    + change (all_comments (p :: ps)) with (comments p ++ all_comments ps).
      cbn -[universal_newlines csv all_comments].
      rewrite csv_app, app_assoc'. f_equal. rewrite <- !app_assoc. cbn. now rewrite <- !app_assoc.
    + exact Hps.
    + rewrite served_app. unfold served at 2. cbn.
      rewrite calls_app, calls_writes. cbn. lia.
    + split; reflexivity.
    + simpl in Hfuel. lia.
Qed.

End Runs.

(** ** Arbitrary runs of the loop *)

Section Loop.
Context `{PyRuntime}.
Variable api : nat -> Response.
Variables (limit : Z) (channel_id access_token : string).

(** the three ways a call of [list_comments] ends *)
Lemma round_cases f token tr res tr1 :
  round api f token channel_id access_token tr = (res, tr1) ->
  let r := api (served tr) in
  let c := call_of channel_id access_token token in
  (status_code r <> 200
   /\ res = Raise (APIException (status_code r) (text r))
   /\ tr1 = tr ++ [Http c])
  \/ (status_code r = 200
      /\ exists e ls, res = Raise e /\ tr1 = tr ++ Http c :: map Write ls)
  \/ (status_code r = 200
      /\ exists next items ls,
           page_head r = Val (next, items)
           /\ lines_of items = (ls, None)
           /\ res = Done (commit {| stored := stored f;
                                    pending := pending f +:+ sconcat ls;
                                    pos := pos f |},
                          {| nt_token := next;
                             nt_count := Z.of_nat (length ls) |})
           /\ tr1 = tr ++ Http c :: map Write ls ++ [Flush]).
Proof.
  intros Hr r c. unfold round in Hr. cbn zeta in Hr. fold r c in Hr.
  destruct (Z.eqb_spec (status_code r) 200) as [Hs|Hs].
  - right. destruct (page_head r) as [[next items]|e].
    + destruct (lines_of items) as [ls [e|]] eqn:Hl; injection Hr as <- <-.
      * left. split; [assumption|]. exists e, ls.
        now rewrite <- app_assoc.
      * right. split; [assumption|]. exists next, items, ls.
        now rewrite <- app_assoc.
    + injection Hr as <- <-. left. split; [assumption|]. now exists e, [].
  - left. injection Hr as <- <-. tauto.
Qed.

(** a call of [list_comments] adds exactly one HTTP call to the trace *)
Lemma round_calls f token tr res tr1 :
  round api f token channel_id access_token tr = (res, tr1) ->
  calls tr1 = calls tr ++ [call_of channel_id access_token token].
Proof.
  intros Hr. apply round_cases in Hr.
  destruct Hr as [(_ & _ & ->)|[(_ & e & ls & _ & ->)|(_ & n & i & ls & _ & _ & _ & ->)]];
    rewrite calls_app; cbn; rewrite ?calls_app, ?calls_writes; reflexivity.
Qed.

Lemma round_served f token tr res tr1 :
  round api f token channel_id access_token tr = (res, tr1) ->
  served tr1 = S (served tr).
Proof.
  intros Hr. unfold served. rewrite (round_calls _ _ _ _ _ Hr), length_app.
  cbn. lia.
Qed.

(** the loop follows [loop_run], one round for each unit of fuel it uses *)
Lemma fetch_loop_loop_run fuel : forall f token total tr,
  exists k, (k <= fuel)%nat
    /\ loop_run api limit channel_id access_token f token total tr k
         (fetch_loop api fuel limit channel_id access_token f token total tr).1
         (fetch_loop api fuel limit channel_id access_token f token total tr).2
    /\ ((fetch_loop api fuel limit channel_id access_token f token total tr).1
        = Spin -> k = fuel).
Proof.
  induction fuel as [|fuel IH]; intros f token total tr.
  - exists O. split; [lia|]. split; [constructor|reflexivity].
  - rewrite fetch_loop_S.
    destruct (round _ _ _ _ _ _) as [[[f' nt]|e|] tr1] eqn:Hr.
    + cbn zeta. destruct (is_none _) eqn:Hi.
      * exists 1%nat. split; [lia|]. split; [|discriminate].
        apply stops_token in Hi. now apply loop_stop with (nt := nt).
      * assert (~ stops limit (total + nt_count nt) (nt_token nt)) as Hn
          by (rewrite stops_token; congruence).
        assert ((if total + nt_count nt <=? limit then nt_token nt else JNull)
                = nt_token nt) as ->.
        { unfold stops in Hn. destruct (Z.leb_spec (total + nt_count nt) limit);
            [reflexivity|]. exfalso. apply Hn. right. lia. }
        destruct (IH f' (nt_token nt) (total + nt_count nt) tr1)
          as (k & Hk & Hrun & Hspin).
        exists (S k). split; [lia|]. split; [|intros Hs; f_equal; auto].
        now apply loop_next with (f' := f') (nt := nt) (tr1 := tr1).
    + exists 1%nat. split; [lia|]. split; [|discriminate]. now constructor.
    + apply round_cases in Hr.
      destruct Hr as [(_ & [=] & _)|[(_ & e & ls & [=] & _)|(_ & n & i & ls & _ & _ & [=] & _)]].
Qed.

(** [k] rounds make exactly [k] HTTP calls *)
Lemma loop_run_served f token total tr k res tr' :
  loop_run api limit channel_id access_token f token total tr k res tr' ->
  served tr' = (served tr + k)%nat.
Proof.
  induction 1 as [| ? ? ? ? ? ? Hr | ? ? ? ? ? ? ? Hr | ? ? ? ? ? ? ? ? ? ? Hr _ _ IH].
  - lia.
  - apply round_served in Hr. lia.
  - apply round_served in Hr. rewrite served_app. unfold served at 2. cbn. lia.
  - apply round_served in Hr. lia.
Qed.

End Loop.



Section LoopFacts.
Context `{PyRuntime}.
Variable api : nat -> Response.
Variables (limit : Z) (channel_id access_token : string).

(** what a round that returns says about the response it read *)
Lemma round_done f token tr f' nt tr1 :
  round api f token channel_id access_token tr = (Done (f', nt), tr1) ->
  status_code (api (served tr)) = 200
  /\ exists items ls,
       page_head (api (served tr)) = Val (nt_token nt, items)
       /\ lines_of items = (ls, None)
       /\ nt_count nt = Z.of_nat (length ls)
       /\ f' = commit {| stored := stored f;
                         pending := pending f +:+ sconcat ls;
                         pos := pos f |}
       /\ tr1 = tr ++ Http (call_of channel_id access_token token)
                   :: map Write ls ++ [Flush].
Proof.
  intros Hr. apply round_cases in Hr.
  destruct Hr as [(_ & [=] & _)|[(_ & e & ls & [=] & _)|
                  (Hs & n & i & ls & Hh & Hl & [= -> ->] & ->)]].
  split; [assumption|]. exists i, ls. cbn. auto.
Qed.

Lemma round_done_decode f token tr f' nt tr1 :
  round api f token channel_id access_token tr = (Done (f', nt), tr1) ->
  exists p, decode_page (api (served tr)) = Some p
            /\ Forall encodable (comments p)
            /\ nextPageToken p = nt_token nt
            /\ Z.of_nat (length (comments p)) = nt_count nt.
Proof.
  intros Hr. apply round_done in Hr
    as (Hs & items & ls & Hh & Hl & Hc & _ & _).
  apply comments_of_lines in Hl as (cs & Hcs & -> & Henc).
  exists {| comments := cs; nextPageToken := nt_token nt |}.
  unfold decode_page. rewrite Hs, Hh, Hcs. cbn.
  rewrite Hc, length_map. auto.
Qed.

(** a refused call ends the run with the exception of that call *)
Lemma loop_run_refused f token total tr k res tr' :
  loop_run api limit channel_id access_token f token total tr k res tr' ->
  forall i, (served tr <= i < served tr')%nat ->
    status_code (api i) <> 200 ->
    res = Raise (APIException (status_code (api i)) (text (api i)))
    /\ served tr' = S i
    /\ exists tr0 c, tr' = tr0 ++ [Http c].
Proof.
  induction 1 as [| f token total tr e tr1 Hr | f token total tr f' nt tr1 Hr
                  | f token total tr f' nt tr1 k res tr' Hr _ _ IH];
    intros i Hi Hne.
  - lia.
  - pose proof (round_served _ _ _ _ _ _ _ _ Hr) as Hs.
    assert (i = served tr) as -> by lia.
    apply round_cases in Hr.
    destruct Hr as [(_ & [= ->] & ->)|[(Hok & _)|(Hok & _)]]; try contradiction.
    split; [reflexivity|]. split; [assumption|]. eauto.
  - pose proof (round_served _ _ _ _ _ _ _ _ Hr) as Hs.
    rewrite served_app in Hi. unfold served at 3 in Hi. cbn in Hi.
    assert (i = served tr) as -> by lia.
    apply round_done in Hr as (Hok & _). contradiction.
  - pose proof (round_served _ _ _ _ _ _ _ _ Hr) as Hs.
    destruct (Nat.eq_dec i (served tr)) as [->|Hd].
    + apply round_done in Hr as (Hok & _). contradiction.
    + apply IH; [lia|assumption].
Qed.

(** the calls of a run: the first with the token the loop was entered
    with, each later one with the token of the response before it *)
Lemma loop_run_calls f token total tr k res tr' :
  loop_run api limit channel_id access_token f token total tr k res tr' ->
  exists cs, calls tr' = calls tr ++ cs
    /\ length cs = k
    /\ (forall c, cs !! O = Some c -> c = call_of channel_id access_token token)
    /\ (forall i c, cs !! S i = Some c ->
          exists next items,
            status_code (api (served tr + i)) = 200
            /\ page_head (api (served tr + i)) = Val (next, items)
            /\ next <> JNull
            /\ c = call_of channel_id access_token next).
Proof.
  induction 1 as [| f token total tr e tr1 Hr | f token total tr f' nt tr1 Hr Hs
                  | f token total tr f' nt tr1 k res tr' Hr Hs _ IH].
  - exists []. rewrite app_nil_r. repeat split; intros; discriminate.
  - exists [call_of channel_id access_token token].
    rewrite (round_calls _ _ _ _ _ _ _ _ Hr).
    repeat split; [now intros c [= <-]|intros i c; destruct i; discriminate].
  - exists [call_of channel_id access_token token].
    rewrite calls_app, (round_calls _ _ _ _ _ _ _ _ Hr), app_nil_r.
    repeat split; [now intros c [= <-]|intros i c; destruct i; discriminate].
  - destruct IH as (cs & Hcs & Hlen & H0 & HS).
    exists (call_of channel_id access_token token :: cs).
    rewrite Hcs, (round_calls _ _ _ _ _ _ _ _ Hr), <- app_assoc.
    split; [reflexivity|]. split; [simpl; now rewrite Hlen|].
    split; [now intros c [= <-]|].
    pose proof (round_served _ _ _ _ _ _ _ _ Hr) as Hsv.
    intros [|i] c Hc; cbn in Hc.
    + apply H0 in Hc as ->.
      apply round_done in Hr as (Hok & items & ls & Hh & _).
      exists (nt_token nt), items. rewrite Nat.add_0_r.
      repeat split; try assumption. unfold stops in Hs. tauto.
    + apply HS in Hc. rewrite Hsv in Hc.
      now replace (served tr + S i)%nat with (S (served tr) + i)%nat by lia.
Qed.

End LoopFacts.

Section LoopFile.
Context `{PyRuntime}.
Variable api : nat -> Response.
Variables (limit : Z) (channel_id access_token : string).



(** Another call follows a page only while the count is within the limit:
    with at least one item on every page that is followed by a call, the
    rounds are bounded. *)
Lemma loop_run_bound f token total tr k res tr' :
  loop_run api limit channel_id access_token f token total tr k res tr' ->
  (forall i, (served tr <= i)%nat -> (S i < served tr')%nat ->
             (1 <= page_size (api i))%nat) ->
  Z.of_nat k <= Z.max (limit - total) 0 + 1.
Proof.
  induction 1 as [| f token total tr e tr1 Hr | f token total tr f' nt tr1 Hr Hs
                  | f token total tr f' nt tr1 k res tr' Hr Hs Hrun IH];
    intros Hpages; try lia.
  pose proof (round_served _ _ _ _ _ _ _ _ Hr) as Hsv.
  pose proof (loop_run_served _ _ _ _ _ _ _ _ _ _ _ Hrun) as Hsv'.
  destruct k as [|k]; [lia|].
  assert (1 <= nt_count nt) as Hcnt.
  { apply round_done in Hr as (_ & items & ls & Hh & Hl & -> & _).
    specialize (Hpages (served tr) (Nat.le_refl _) ltac:(lia)).
    unfold page_size in Hpages. rewrite Hh in Hpages.
    apply lines_of_length in Hl. lia. }
  assert (total + nt_count nt <= limit) by (unfold stops in Hs; lia).
  assert (Z.of_nat (S k) <= Z.max (limit - (total + nt_count nt)) 0 + 1)
    by (apply IH; intros i Hi1 Hi2; apply Hpages; lia).
  lia.
Qed.

(** a run that returns has fetched well-formed pages *)
Lemma loop_run_done f token total tr k s tr' :
  loop_run api limit channel_id access_token f token total tr k (Done s) tr' ->
  exists pages, fetch_run api limit (served tr) total pages
                /\ Forall encodable (all_comments pages)
                /\ length pages = k.
Proof.
  remember (Done s) as res eqn:Hres.
  induction 1 as [| f token total tr e tr1 Hr | f token total tr f' nt tr1 Hr Hs
                  | f token total tr f' nt tr1 k res tr' Hr Hs _ IH];
    try discriminate.
  - apply round_done_decode in Hr as (p & Hd & Henc & Hn & Hc).
    exists [p]. split; [|split; [|reflexivity]].
    + apply run_last; [assumption|]. now rewrite Hn, Hc.
    + unfold all_comments. cbn [map concat]. now rewrite app_nil_r.
  - pose proof (round_served _ _ _ _ _ _ _ _ Hr) as Hsv.
    apply round_done_decode in Hr as (p & Hd & Henc & Hn & Hc).
    destruct (IH Hres) as (ps & Hps & Hencs & Hlen).
    exists (p :: ps). split; [|split; [|simpl; now rewrite Hlen]].
    + apply run_more; [assumption|now rewrite Hn, Hc|].
      now rewrite Hc, <- Hsv.
    + unfold all_comments. cbn [map concat]. apply Forall_app. now split.
Qed.

(** more fuel does not change a run that has ended *)
Lemma fetch_loop_more fuel : forall f token total tr res tr',
  fetch_loop api fuel limit channel_id access_token f token total tr = (res, tr') ->
  res <> Spin ->
  fetch_loop api (S fuel) limit channel_id access_token f token total tr = (res, tr').
Proof.
  induction fuel as [|fuel IH]; intros f token total tr res tr' Hrun Hne.
  - injection Hrun as <- <-. contradiction.
  - rewrite fetch_loop_S in Hrun. rewrite fetch_loop_S.
    destruct (round _ _ _ _ _ _) as [[[f' nt]|e|] tr1]; try assumption.
    cbn zeta in *. destruct (is_none _); [assumption|]. now apply IH.
Qed.

Lemma fetch_loop_fuel fuel fuel' f token total tr res tr' :
  fetch_loop api fuel limit channel_id access_token f token total tr = (res, tr') ->
  res <> Spin -> (fuel <= fuel')%nat ->
  fetch_loop api fuel' limit channel_id access_token f token total tr = (res, tr').
Proof.
  intros Hrun Hne Hle. induction Hle as [|fuel' _ IH]; [assumption|].
  now apply fetch_loop_more.
Qed.

(** the records of a run do not exceed the limit by more than its last
    page, the limit taken as no less than the count on entry *)
Lemma fetch_run_bound n total pages :
  fetch_run api limit n total pages ->
  total + Z.of_nat (length (all_comments pages))
  <= Z.max limit total + Z.of_nat (length (comments (List.last pages
                                      {| comments := []; nextPageToken := JNull |}))).
Proof.
  induction 1 as [n total p Hd Hs|n total p ps Hd Hs Hr IH].
  - unfold all_comments. cbn. rewrite app_nil_r. lia.
  - change (all_comments (p :: ps)) with (comments p ++ all_comments ps).
    rewrite length_app.
    assert (ps <> []) as Hne by (inversion Hr; discriminate).
    assert (List.last (p :: ps) {| comments := []; nextPageToken := JNull |}
            = List.last ps {| comments := []; nextPageToken := JNull |}) as ->
      by (destruct ps; [contradiction|reflexivity]).
    unfold stops in Hs. lia.
Qed.

(** the responses fix the pages of a run *)
Lemma fetch_run_unique n total ps ps' :
  fetch_run api limit n total ps -> fetch_run api limit n total ps' -> ps = ps'.
Proof.
  intros Hrun. revert ps'.
  induction Hrun as [n total p Hd Hs|n total p ps Hd Hs Hr IH]; intros ps' Hrun';
    inversion Hrun' as [n' total' p' Hd' Hs'|n' total' p' ps2 Hd' Hs' Hr'];
    subst; rewrite Hd in Hd'; injection Hd' as <-.
  - reflexivity.
  - contradiction.
  - contradiction.
  - f_equal. now apply IH.
Qed.

End LoopFile.

(** ** Line breaks *)

Lemma universal_newlines_id s :
  count_char CR s = O -> universal_newlines s = s.
Proof.
  induction s as [|c s IH]; [reflexivity|]. simpl.
  destruct (Ascii.eqb c CR); [discriminate|].
  intros Hs. now rewrite IH.
Qed.

Lemma count_replace_self c new s :
  count_char c new = O -> count_char c (replace_char c new s) = O.
Proof.
  intros Hn. induction s as [|d s IH]; [reflexivity|]. simpl.
  destruct (Ascii.eqb d c) eqn:Hd.
  - rewrite count_char_app, Hn, IH. reflexivity.
  - simpl. rewrite Hd, IH. reflexivity.
Qed.

Lemma count_replace_other c old new s :
  Ascii.eqb old c = false -> count_char c new = O ->
  count_char c (replace_char old new s) = count_char c s.
Proof.
  intros Ho Hn. induction s as [|d s IH]; [reflexivity|]. simpl.
  destruct (Ascii.eqb d old) eqn:Hd.
  - apply Ascii.eqb_eq in Hd as ->. rewrite count_char_app, Hn, IH, Ho.
    reflexivity.
  - simpl. rewrite IH. reflexivity.
Qed.

(** the text of a record holds neither kind of line break *)
Lemma transformed_no_cr t : count_char CR (transformed t) = O.
Proof.
  unfold transformed. rewrite count_replace_other by reflexivity.
  now apply count_replace_self.
Qed.

Lemma transformed_no_lf t : count_char LF (transformed t) = O.
Proof. unfold transformed. now apply count_replace_self. Qed.

Lemma count_quoted c s :
  Ascii.eqb DQ c = false -> count_char c (quoted s) = count_char c s.
Proof.
  intros Hc. unfold quoted, str1. cbn [count_char].
  rewrite count_char_app. cbn [count_char]. rewrite Hc. lia.
Qed.

Section Lines.
Context `{PyRuntime}.

Lemma count_csv_line c (x : Comment) :
  Ascii.eqb DQ c = false -> Ascii.eqb "," c = false ->
  count_char c (csv_line x)
  = (count_char c (field_str (publishedAt x))
     + count_char c (field_str (authorDisplayName x))
     + count_char c (transformed (textOriginal x))
     + (if Ascii.eqb LF c then 1 else 0))%nat.
Proof.
  intros Hq Hc. unfold csv_line.
  rewrite !count_char_app, !count_quoted by assumption.
  unfold str1. cbn [count_char]. rewrite Hc. lia.
Qed.

Lemma csv_no_cr cs : Forall no_cr cs -> count_char CR (csv cs) = O.
Proof.
  unfold csv. induction 1 as [|x cs [Hp Ha] _ IH]; [reflexivity|].
  cbn [map sconcat]. rewrite count_char_app, IH, count_csv_line by reflexivity.
  rewrite Hp, Ha, transformed_no_cr. reflexivity.
Qed.

Lemma csv_count_lf cs :
  Forall one_line cs -> count_char LF (csv cs) = length cs.
Proof.
  unfold csv. induction 1 as [|x cs (_ & Hp & Ha) _ IH]; [reflexivity|].
  cbn [map sconcat]. rewrite count_char_app, IH, count_csv_line by reflexivity.
  rewrite Hp, Ha, transformed_no_lf. reflexivity.
Qed.

Lemma one_line_no_cr cs : Forall one_line cs -> Forall no_cr cs.
Proof. intros Hc. eapply Forall_impl; [exact Hc|]. now intros x [Hx _]. Qed.

End Lines.

(** ** [execute_job] *)

Section Job.
Context `{PyRuntime}.
Variable api : nat -> Response.

Lemma execute_job_loop fuel environ request tr access_token channel_id limit :
  form request !! "access_token" = Some access_token ->
  form request !! "channel_id" = Some channel_id ->
  py_int_of (environ !! "LIMIT") = Val limit ->
  execute_job api fuel environ request tr
  = fetch_loop api fuel limit channel_id access_token TemporaryFile JNull 0 tr.
Proof.
  intros Ha Hc Hl. unfold execute_job, form_get.
  rewrite Ha, Hc, Hl. reflexivity.
Qed.

(** without its form fields or its limit the job raises before any call *)
Lemma execute_job_cases fuel environ request tr :
  (exists e, execute_job api fuel environ request tr = (Raise e, tr))
  \/ (exists access_token channel_id limit,
        form request !! "access_token" = Some access_token
        /\ form request !! "channel_id" = Some channel_id
        /\ py_int_of (environ !! "LIMIT") = Val limit
        /\ execute_job api fuel environ request tr
           = fetch_loop api fuel limit channel_id access_token
               TemporaryFile JNull 0 tr).
Proof.
  destruct (form request !! "access_token") as [a|] eqn:Ha;
    [|left; unfold execute_job, form_get; rewrite Ha; eauto].
  destruct (form request !! "channel_id") as [c|] eqn:Hc;
    [|left; unfold execute_job, form_get; rewrite Ha, Hc; eauto].
  destruct (py_int_of (environ !! "LIMIT")) as [l|e] eqn:Hl;
    [|left; unfold execute_job, form_get; rewrite Ha, Hc, Hl; eauto].
  right. exists a, c, l. repeat split; try assumption.
  now apply execute_job_loop.
Qed.

(** the job over well-formed pages: what it returns and what it does *)
Lemma execute_job_run fuel environ request tr access_token channel_id limit pages :
  form request !! "access_token" = Some access_token ->
  form request !! "channel_id" = Some channel_id ->
  py_int_of (environ !! "LIMIT") = Val limit ->
  fetch_run api limit (served tr) 0 pages ->
  Forall encodable (all_comments pages) -> (length pages <= fuel)%nat ->
  execute_job api fuel environ request tr
  = (Done (universal_newlines (csv (all_comments pages))),
     tr ++ fetch_events channel_id access_token JNull pages ++ [Seek 0; Read]).
Proof.
  intros Ha Hc Hl Hp Henc Hlen.
  rewrite (execute_job_loop fuel environ request tr _ _ _ Ha Hc Hl).
  rewrite (fetch_loop_run api limit channel_id access_token _ _ _ Hp Henc fuel
             TemporaryFile JNull tr eq_refl at_end_new Hlen).
  reflexivity.
Qed.

(** a job that returns has run the loop over well-formed pages *)
Lemma execute_job_done fuel environ request tr s tr' :
  execute_job api fuel environ request tr = (Done s, tr') ->
  exists access_token channel_id limit pages,
    form request !! "access_token" = Some access_token
    /\ form request !! "channel_id" = Some channel_id
    /\ py_int_of (environ !! "LIMIT") = Val limit
    /\ fetch_run api limit (served tr) 0 pages
    /\ Forall encodable (all_comments pages)
    /\ (length pages <= fuel)%nat
    /\ s = universal_newlines (csv (all_comments pages)).
Proof.
  intros Hs.
  destruct (execute_job_cases fuel environ request tr)
    as [(e & He)|(a & c & l & Ha & Hc & Hl & He)]; [congruence|].
  destruct (fetch_loop_loop_run api l c a fuel TemporaryFile JNull 0 tr)
    as (k & Hk & Hloop & _).
  rewrite <- He, Hs in Hloop. cbn in Hloop.
  apply loop_run_done in Hloop as (pages & Hp & Henc & Hlen).
  exists a, c, l, pages. repeat split; try assumption; [lia|].
  rewrite (execute_job_run fuel environ request tr _ _ _ _ Ha Hc Hl Hp Henc) in Hs
    by lia.
  now injection Hs as <- _.
Qed.

End Job.

(** * The claims *)

(** ** C1: the returned text *)

(** C1 as stated fails: a carriage return in a display name comes back as
    a line feed.  The run below has one page with status 200 and one
    comment, and the text it returns is not the record of that comment. *)
Lemma returned_text_not_verbatim :
  @fetch_run (table_runtime [body_cr]) (serve [ok body_cr]) 5 0 0 [page_cr]
  /\ (@execute_job (table_runtime [body_cr]) (serve [ok body_cr]) 1
        (env_limit "5") demo_request []).1
     = Done (@csv (table_runtime [body_cr]) (comments page_lf))
  /\ @csv (table_runtime [body_cr]) (comments page_lf)
     <> @csv (table_runtime [body_cr]) (all_comments [page_cr]).
Proof.
  split; [|split].
  - apply run_last; [vm_compute; reflexivity|left; reflexivity].
  - vm_compute. reflexivity.
  - vm_compute. discriminate.
Qed.

(** C1, amended: when every call returns status 200 with well-formed
    comment items whose records have a UTF-8 encoding, [execute_job]
    returns the concatenation, in fetch order, of one CSV record per
    comment item of the fetched pages (the quoted publishedAt,
    authorDisplayName and transformed textOriginal, separated by commas and
    ended by a line feed) as the text-mode scratch file reads it back, that
    is with CR LF and CR turned into LF; it is the concatenation itself
    when no publishedAt or authorDisplayName holds a carriage return.
    Every run that returns is such a run.  A record has a UTF-8 encoding
    when its three fields have one; the write of a record that has none,
    which is one with a surrogate that stands alone, raises
    [UnicodeEncodeError] and no text is returned. *)
Theorem execute_job_csv `{PyRuntime} (api : nat -> Response) (fuel : nat)
    (environ : gmap string string) (request : Request)
    (access_token channel_id : string) (limit : Z) (tr : World) :
  form request !! "access_token" = Some access_token ->
  form request !! "channel_id" = Some channel_id ->
  py_int_of (environ !! "LIMIT") = Val limit ->
  (forall pages,
     fetch_run api limit (served tr) 0 pages ->
     Forall encodable (all_comments pages) -> (length pages <= fuel)%nat ->
     execute_job api fuel environ request tr
     = (Done (universal_newlines (csv (all_comments pages))),
        tr ++ fetch_events channel_id access_token JNull pages ++ [Seek 0; Read]))
  /\ (forall s tr',
        execute_job api fuel environ request tr = (Done s, tr') ->
        exists pages,
          fetch_run api limit (served tr) 0 pages
          /\ Forall encodable (all_comments pages)
          /\ (length pages <= fuel)%nat
          /\ s = universal_newlines (csv (all_comments pages)))
  /\ (forall cs, Forall no_cr cs -> universal_newlines (csv cs) = csv cs)
  /\ (forall c,
        utf8_valid (field_str (publishedAt c)) = true ->
        utf8_valid (field_str (authorDisplayName c)) = true ->
        utf8_valid (textOriginal c) = true ->
        encodable c)
  /\ (forall p,
        decode_page (api (served tr)) = Some p ->
        ~ Forall encodable (comments p) ->
        (0 < fuel)%nat ->
        (execute_job api fuel environ request tr).1 = Raise UnicodeEncodeError).
Proof.
  intros Ha Hc Hl.
  assert (forall pages,
            fetch_run api limit (served tr) 0 pages ->
            Forall encodable (all_comments pages) -> (length pages <= fuel)%nat ->
            execute_job api fuel environ request tr
            = (Done (universal_newlines (csv (all_comments pages))),
               tr ++ fetch_events channel_id access_token JNull pages
                  ++ [Seek 0; Read])) as Hrun
    by (intros pages; now apply execute_job_run).
  split; [exact Hrun|]. split; [|split; [|split]].
  - intros s tr' Hs.
    destruct (fetch_loop_loop_run api limit channel_id access_token fuel
                TemporaryFile JNull 0 tr) as (k & Hk & Hloop & _).
    rewrite <- (execute_job_loop api fuel environ request tr _ _ _ Ha Hc Hl),
      Hs in Hloop.
    cbn in Hloop.
    apply loop_run_done in Hloop as (pages & Hp & Henc & Hlen).
    exists pages. split; [assumption|]. split; [assumption|]. split; [lia|].
    rewrite (Hrun pages Hp Henc) in Hs by lia. now injection Hs as <- _.
  - intros cs Hcs. apply universal_newlines_id. now apply csv_no_cr.
  - intros c. apply encodable_fields.
  - intros p Hd Hno Hfuel. destruct fuel as [|fuel]; [lia|].
    rewrite (execute_job_loop api (S fuel) environ request tr _ _ _ Ha Hc Hl).
    rewrite fetch_loop_S.
    destruct (round_unencodable api TemporaryFile JNull channel_id
                access_token tr p Hd Hno) as [tr1 ->].
    reflexivity.
Qed.

Lemma fetch_run_ab : @fetch_run rt_ab api_ab 5 0 0 [page_a; page_b].
Proof.
  apply run_more; [vm_compute; reflexivity| |].
  - intros [Hn|Hlt]; [discriminate|]. vm_compute in Hlt. discriminate.
  - apply run_last; [vm_compute; reflexivity|left; reflexivity].
Qed.

Lemma encodable_ab :
  @Forall Comment (@encodable rt_ab) (all_comments [page_a; page_b]).
Proof. repeat (constructor; [vm_compute; reflexivity|]). constructor. Qed.

Lemma execute_job_csv_witness :
  (@execute_job rt_ab api_ab 2 (env_limit "5") demo_request []).1
  = Done (universal_newlines (@csv rt_ab (all_comments [page_a; page_b]))).
Proof.
  destruct (@execute_job_csv rt_ab api_ab 2 (env_limit "5") demo_request
              "ya29" "UC1" 5 [] eq_refl eq_refl eq_refl) as [Hrun _].
  rewrite (Hrun [page_a; page_b] fetch_run_ab encodable_ab (Nat.le_refl 2)).
  reflexivity.
Defined.

(** ** C2: when the loop stops *)

Lemma stake_sdrop n s : stake n s +:+ sdrop n s = s.
Proof.
  revert s. induction n as [|n IH]; intros [|c s]; try reflexivity.
  simpl. now rewrite app_cons, IH.
Qed.

Lemma commit_flushed f : pending f = EmptyString -> stored (commit f) = stored f.
Proof.
  intros Hp. unfold commit, overwrite. cbn. rewrite Hp. cbn.
  now rewrite Nat.add_0_r, app_empty_l, stake_sdrop.
Qed.

Lemma page_token_call channel_id access_token token :
  page_token (call_of channel_id access_token token)
  = if is_none token then None else Some token.
Proof. destruct token; reflexivity. Qed.

Lemma next_of_object kv :
  next_of (JObj kv) = Val (default JNull (assoc "nextPageToken" kv)).
Proof.
  unfold next_of. cbn. destruct (assoc "nextPageToken" kv) as [v|]; reflexivity.
Qed.

Section Head.
Context `{PyRuntime}.

(** the body of a page [list_comments] accepts is an object, and the
    token taken from it is the value of its [nextPageToken], [None] when
    it has none *)
Lemma page_head_object r next items :
  page_head r = Val (next, items) ->
  exists kv, json_loads (text r) = Some (JObj kv)
             /\ next = default JNull (assoc "nextPageToken" kv).
Proof.
  unfold page_head, loads. destruct (json_loads (text r)) as [body|]; [|discriminate].
  cbn -[next_of py_getitem py_iter].
  destruct (next_of body) as [nx|] eqn:Hn; cbn -[py_getitem py_iter];
    [|discriminate].
  destruct body; try discriminate.
  rewrite next_of_object in Hn. injection Hn as <-.
  destruct (_ ← py_getitem (JObj kv) "items"; _); [|discriminate].
  cbn. intros [= <- _]. eauto.
Qed.

End Head.

(** C2 as stated fails: a response can contain nextPageToken and end the
    loop with the count within the limit.  The page below has the key
    nextPageToken with the value null and one item, and the limit is 5: the
    job returns after this one request, and makes no second one however
    long it is run, although the server has a further page. *)
Lemma null_token_stops :
  (exists kv,
     @json_loads (table_runtime [body_null]) (text (api_null O)) = Some (JObj kv)
     /\ assoc "nextPageToken" kv = Some JNull)
  /\ py_contains "nextPageToken" body_null = Val true
  /\ @decode_page (table_runtime [body_null]) (api_null 1) = Some page_b
  /\ ~ (5 < 0 + Z.of_nat (length (comments page_b)))
  /\ forall fuel,
       @execute_job (table_runtime [body_null]) api_null (S fuel)
         (env_limit "5") demo_request []
       = (Done (universal_newlines
                  (@csv (table_runtime [body_null]) (comments page_b))),
          [] ++ @fetch_events (table_runtime [body_null]) "UC1" "ya29" JNull
                  [page_b] ++ [Seek 0; Read])
       /\ served (@execute_job (table_runtime [body_null]) api_null (S fuel)
                    (env_limit "5") demo_request []).2 = 1%nat.
Proof.
  split; [|split; [|split; [|split]]].
  - eexists. split; vm_compute; reflexivity.
  - vm_compute. reflexivity.
  - vm_compute. reflexivity.
  - vm_compute. intros Hlt. discriminate.
  - intros fuel.
    assert (@execute_job (table_runtime [body_null]) api_null (S fuel)
              (env_limit "5") demo_request []
            = (Done (universal_newlines
                       (@csv (table_runtime [body_null]) (all_comments [page_b]))),
               [] ++ @fetch_events (table_runtime [body_null]) "UC1" "ya29" JNull
                       [page_b] ++ [Seek 0; Read])) as Hrun.
    { apply (@execute_job_run (table_runtime [body_null]) api_null (S fuel)
               (env_limit "5") demo_request [] "ya29" "UC1" 5 [page_b]
               eq_refl eq_refl eq_refl).
      - apply run_last; [vm_compute; reflexivity|left; reflexivity].
      - repeat (constructor; [vm_compute; reflexivity|]). constructor.
      - simpl. lia. }
    rewrite Hrun. split; reflexivity.
Qed.

(** C2, amended: the loop of [execute_job] runs with the limit [int] reads
    from LIMIT.  After a page that [list_comments] has processed, returning
    the token of the response and the number of its items, the loop stops
    exactly when that token is [None] or the accumulated count strictly
    exceeds the limit; it then returns the text the scratch file holds.
    The token is the value of the body's nextPageToken, and it is [None]
    exactly when the body has no such key or has it with the value null.
    In every other case the loop goes round again with the returned token,
    which the next request carries as its pageToken. *)
Theorem loop_stops_exactly `{PyRuntime} (api : nat -> Response)
    (environ : gmap string string) (limit : Z)
    (channel_id access_token : string) (f : TempFile) (token : json)
    (total : Z) (tr : World) (f' : TempFile) (nt : NextToken) (tr1 : World) :
  py_int_of (environ !! "LIMIT") = Val limit ->
  list_comments api f token channel_id access_token tr = (Done (f', nt), tr1) ->
  (forall fuel request tr0,
     form request !! "access_token" = Some access_token ->
     form request !! "channel_id" = Some channel_id ->
     execute_job api fuel environ request tr0
     = fetch_loop api fuel limit channel_id access_token TemporaryFile JNull 0 tr0)
  /\ (exists kv, json_loads (text (api (served tr))) = Some (JObj kv)
                 /\ nt_token nt = default JNull (assoc "nextPageToken" kv)
                 /\ (nt_token nt = JNull
                     <-> assoc "nextPageToken" kv = None
                         \/ assoc "nextPageToken" kv = Some JNull))
  /\ (nt_token nt = JNull \/ limit < total + nt_count nt ->
      forall fuel,
        fetch_loop api (S fuel) limit channel_id access_token f token total tr
        = (Done (universal_newlines (stored f')), tr1 ++ [Seek 0; Read]))
  /\ (~ (nt_token nt = JNull \/ limit < total + nt_count nt) ->
      forall fuel,
        fetch_loop api (S fuel) limit channel_id access_token f token total tr
        = fetch_loop api fuel limit channel_id access_token f' (nt_token nt)
            (total + nt_count nt) tr1
        /\ calls (fetch_loop api (S (S fuel)) limit channel_id access_token
                    f token total tr).2 !! served tr1
           = Some (call_of channel_id access_token (nt_token nt))
        /\ page_token (call_of channel_id access_token (nt_token nt))
           = Some (nt_token nt)).
Proof.
  intros Hl Hr. rewrite list_comments_round in Hr.
  split; [intros fuel request tr0 Ha Hc; now apply execute_job_loop|].
  split.
  { apply round_done in Hr as (_ & items & ls & Hh & _).
    apply page_head_object in Hh as (kv & Hkv & Hnext).
    exists kv. split; [assumption|]. split; [assumption|].
    rewrite Hnext. destruct (assoc "nextPageToken" kv) as [v|]; cbn.
    - split; [intros ->; now right|intros [[=]|[= ->]]; reflexivity].
    - split; [now left|reflexivity]. }
  assert (stored (commit f') = stored f') as Hst.
  { apply round_done in Hr as (_ & items & ls & _ & _ & _ & -> & _).
    now apply commit_flushed. }
  split.
  - intros Hs fuel. rewrite fetch_loop_S, Hr. cbn zeta.
    apply (stops_token limit) in Hs. rewrite Hs, Hst. reflexivity.
  - intros Hs fuel.
    assert (is_none (if total + nt_count nt <=? limit then nt_token nt else JNull)
            = false) as Hi.
    { destruct (is_none _) eqn:Hi; [|reflexivity].
      apply stops_token in Hi. contradiction. }
    assert ((if total + nt_count nt <=? limit then nt_token nt else JNull)
            = nt_token nt) as Ht.
    { destruct (Z.leb_spec (total + nt_count nt) limit); [reflexivity|].
      exfalso. apply Hs. right. lia. }
    assert (forall n,
              fetch_loop api (S n) limit channel_id access_token f token total tr
              = fetch_loop api n limit channel_id access_token f' (nt_token nt)
                  (total + nt_count nt) tr1) as Hstep.
    { intros n. rewrite fetch_loop_S, Hr. cbn zeta. rewrite Hi, Ht. reflexivity. }
    split; [apply Hstep|]. split.
    + rewrite Hstep.
      destruct (fetch_loop_loop_run api limit channel_id access_token (S fuel)
                  f' (nt_token nt) (total + nt_count nt) tr1)
        as (k & _ & Hrun & Hspin).
      assert (k <> O) as Hk.
      { intros ->. inversion Hrun.
        match goal with
        | Hres : Spin = _ |- _ =>
            symmetry in Hres; apply Hspin in Hres; discriminate
        end. }
      apply loop_run_calls in Hrun as (cs & -> & Hlen & H0 & _).
      destruct cs as [|c cs]; [simpl in Hlen; lia|].
      rewrite (H0 c eq_refl).
      unfold served. now rewrite lookup_app_r, Nat.sub_diag by lia.
    + rewrite page_token_call.
      destruct (is_none (nt_token nt)) eqn:Hn; [|reflexivity].
      apply is_none_true in Hn. tauto.
Qed.

Lemma loop_stops_exactly_witness :
  (@fetch_loop rt_ab api_ab 1 1 "UC1" "ya29" TemporaryFile JNull 0 []).1
  = Done (universal_newlines (@csv rt_ab (comments page_a))).
Proof.
  destruct (@loop_stops_exactly rt_ab api_ab (env_limit "1") 1 "UC1" "ya29"
              TemporaryFile JNull 0 [] _ _ _ eq_refl eq_refl)
    as (_ & _ & Hstop & _).
  rewrite Hstop; [reflexivity|]. right. vm_compute. reflexivity.
Defined.

(** ** C3: how many requests *)

Lemma round_empty f token channel_id access_token tr :
  exists f' tr1,
    @round (table_runtime [body_empty]) api_empty f token channel_id access_token tr
    = (Done (f', {| nt_token := JStr "T"; nt_count := 0 |}), tr1).
Proof.
  unfold round, api_empty.
  change (status_code (ok body_empty) =? 200) with true. cbv iota.
  assert (@page_head (table_runtime [body_empty]) (ok body_empty)
          = Val (JStr "T", [])) as -> by (vm_compute; reflexivity).
  cbn. eauto.
Qed.

Lemma empty_pages_spin fuel : forall f token tr,
  (@fetch_loop (table_runtime [body_empty]) api_empty fuel 1 "UC1" "ya29"
     f token 0 tr).1 = Spin.
Proof.
  induction fuel as [|fuel IH]; intros f token tr; [reflexivity|].
  rewrite fetch_loop_S.
  destruct (round_empty f token "UC1" "ya29" tr) as (f' & tr1 & ->).
  cbn -[fetch_loop]. apply IH.
Qed.

(** C3 as stated fails: with the limit 1 and a server whose every page has
    no items and names a next page, no number bounds the requests of
    [execute_job]. *)
Lemma empty_pages_unbounded :
  ~ exists bound : nat, forall fuel,
      (served (@execute_job (table_runtime [body_empty]) api_empty fuel
                 (env_limit "1") demo_request []).2 <= bound)%nat.
Proof.
  intros [bound Hb]. specialize (Hb (S bound)).
  rewrite (@execute_job_loop (table_runtime [body_empty]) api_empty (S bound)
             (env_limit "1") demo_request [] "ya29" "UC1" 1
             eq_refl eq_refl eq_refl) in Hb.
  destruct (@fetch_loop_loop_run (table_runtime [body_empty]) api_empty 1
              "UC1" "ya29" (S bound) TemporaryFile JNull 0 [])
    as (k & _ & Hrun & Hspin).
  apply loop_run_served in Hrun. rewrite Hrun in Hb.
  rewrite (Hspin (empty_pages_spin _ _ _ _)) in Hb. cbn in Hb. lia.
Qed.

(** C3, amended: the loop is bounded by the record count alone.  A page is
    followed by another request only while the accumulated count is at most
    the limit, so a run in which every page that is followed by a request
    has at least one item makes at most max(limit, 0) + 1 requests.  Pages
    without items do not advance the count and are outside this bound. *)
Theorem requests_bounded_by_records `{PyRuntime} (api : nat -> Response)
    (fuel : nat) (environ : gmap string string) (request : Request)
    (limit : Z) (tr : World) :
  py_int_of (environ !! "LIMIT") = Val limit ->
  (forall i, (served tr <= i)%nat ->
             (S i < served (execute_job api fuel environ request tr).2)%nat ->
             (1 <= page_size (api i))%nat) ->
  Z.of_nat (served (execute_job api fuel environ request tr).2 - served tr)
  <= Z.max limit 0 + 1.
Proof.
  intros Hl Hpages.
  destruct (execute_job_cases api fuel environ request tr)
    as [(e & He)|(a & c & l & Ha & Hc & Hl' & He)];
    rewrite He in *; cbn [snd] in *; [lia|].
  rewrite Hl in Hl'. injection Hl' as <-.
  destruct (fetch_loop_loop_run api limit c a fuel TemporaryFile JNull 0 tr)
    as (k & _ & Hrun & _).
  pose proof (loop_run_served _ _ _ _ _ _ _ _ _ _ _ Hrun) as Hsv.
  apply loop_run_bound in Hrun; [|assumption].
  rewrite Hsv. replace (limit - 0) with limit in Hrun by lia. lia.
Qed.

Lemma requests_bounded_by_records_witness :
  Z.of_nat (served (@execute_job rt_ab api_ab 5 (env_limit "5") demo_request []).2
            - served [])
  <= Z.max 5 0 + 1.
Proof.
  apply (@requests_bounded_by_records rt_ab api_ab 5 (env_limit "5")
           demo_request 5 [] eq_refl).
  intros i _ Hi. vm_compute in Hi.
  assert (i = O) as -> by lia. vm_compute. lia.
Defined.

(** ** C4: the requests and their page tokens *)

(** C4: every call of [list_comments], which is one round of the loop,
    makes exactly one request whatever the outcome; a run of [fuel] rounds
    that has not ended has made exactly [fuel] requests.  All requests go
    to commentThreads; the first has no pageToken, and every later one has
    as its pageToken the token of the response to the request before it. *)
Theorem requests_follow_tokens `{PyRuntime} (api : nat -> Response) (fuel : nat)
    (environ : gmap string string) (request : Request) (tr : World) :
  (forall f token channel_id access_token tr0,
     calls (list_comments api f token channel_id access_token tr0).2
     = calls tr0 ++ [call_of channel_id access_token token])
  /\ exists cs,
       calls (execute_job api fuel environ request tr).2 = calls tr ++ cs
       /\ (length cs <= fuel)%nat
       /\ ((execute_job api fuel environ request tr).1 = Spin -> length cs = fuel)
       /\ Forall (fun c => verb c = "GET"
                    /\ url c = "https://www.googleapis.com/youtube/v3/commentThreads")
            cs
       /\ (forall c, cs !! O = Some c -> page_token c = None)
       /\ (forall i c, cs !! S i = Some c ->
             exists kv next,
               status_code (api (served tr + i)%nat) = 200
               /\ json_loads (text (api (served tr + i)%nat)) = Some (JObj kv)
               /\ assoc "nextPageToken" kv = Some next
               /\ page_token c = Some next).
Proof.
  split.
  { intros f token c a tr0. rewrite list_comments_round.
    destruct (round _ _ _ _ _ _) as [res tr1] eqn:Hr.
    now apply round_calls in Hr. }
  destruct (execute_job_cases api fuel environ request tr)
    as [(e & He)|(a & c & l & Ha & Hc & Hl & He)]; rewrite He.
  - exists []. cbn. rewrite app_nil_r.
    repeat split; try discriminate; try lia; constructor.
  - destruct (fetch_loop_loop_run api l c a fuel TemporaryFile JNull 0 tr)
      as (k & Hk & Hrun & Hspin).
    apply loop_run_calls in Hrun as (cs & Hcs & Hlen & H0 & HS).
    exists cs. split; [assumption|]. split; [lia|].
    split; [intros Hs; rewrite Hlen; auto|].
    assert (forall cc, cc ∈ cs -> exists t, cc = call_of c a t) as Hall.
    { intros cc Hin. apply list_elem_of_lookup in Hin as [[|i] Hi].
      - apply H0 in Hi. eauto.
      - apply HS in Hi as (next & _ & _ & _ & _ & ->). eauto. }
    split; [|split].
    + apply Forall_forall. intros cc Hin.
      destruct (Hall cc Hin) as [t ->]. split; reflexivity.
    + intros cc Hcc. apply H0 in Hcc as ->. reflexivity.
    + intros i cc Hcc.
      apply HS in Hcc as (next & items & Hok & Hh & Hne & ->).
      apply page_head_object in Hh as (kv & Hkv & Hnext).
      exists kv, next. repeat split; try assumption.
      * destruct (assoc "nextPageToken" kv) as [v|]; cbn in Hnext;
          [congruence|contradiction].
      * rewrite page_token_call. apply is_none_false in Hne. now rewrite Hne.
Qed.

Lemma requests_follow_tokens_witness :
  exists c0 c1,
    calls (@execute_job rt_ab api_ab 5 (env_limit "5") demo_request []).2
    = [c0; c1]
    /\ page_token c0 = None /\ page_token c1 = Some (JStr "T1").
Proof.
  destruct (@requests_follow_tokens rt_ab api_ab 5 (env_limit "5") demo_request [])
    as (_ & cs & Hcs & _ & _ & _ & H0 & HS).
  destruct cs as [|c0 [|c1 [|c2 cs]]]; try (vm_compute in Hcs; discriminate).
  exists c0, c1. split; [exact Hcs|]. split; [now apply H0|].
  destruct (HS O c1 eq_refl) as (kv & next & _ & Hkv & Hn & ->).
  vm_compute in Hkv. injection Hkv as <-. vm_compute in Hn. now symmetry.
Defined.

(** ** C5: a refused request *)

(** C5: a request answered with a status other than 200 makes
    [list_comments] raise [APIException] with that status and the response
    body, after that one request.  [execute_job] then ends with the same
    exception, with no further request however long it is run, and returns
    no text. *)
Theorem refusal_ends_job `{PyRuntime} (api : nat -> Response) :
  (forall f token channel_id access_token tr,
     status_code (api (served tr)) <> 200 ->
     list_comments api f token channel_id access_token tr
     = (Raise (APIException (status_code (api (served tr)))
                            (text (api (served tr)))),
        tr ++ [Http (call_of channel_id access_token token)]))
  /\ (forall fuel environ request tr i,
        (served tr <= i < served (execute_job api fuel environ request tr).2)%nat ->
        status_code (api i) <> 200 ->
        (execute_job api fuel environ request tr).1
        = Raise (APIException (status_code (api i)) (text (api i)))
        /\ served (execute_job api fuel environ request tr).2 = S i
        /\ exists tr0 c,
             (execute_job api fuel environ request tr).2 = tr0 ++ [Http c]).
Proof.
  split.
  - intros f token c a tr Hne. rewrite list_comments_round. unfold round.
    destruct (Z.eqb_spec (status_code (api (served tr))) 200);
      [contradiction|reflexivity].
  - intros fuel environ request tr i Hi Hne.
    destruct (execute_job_cases api fuel environ request tr)
      as [(e & He)|(a & c & l & Ha & Hc & Hl & He)];
      rewrite He in *; cbn [snd] in *; [lia|].
    destruct (fetch_loop_loop_run api l c a fuel TemporaryFile JNull 0 tr)
      as (k & _ & Hrun & _).
    exact (loop_run_refused _ _ _ _ _ _ _ _ _ _ _ Hrun i Hi Hne).
Qed.

Lemma refusal_ends_job_witness :
  (@execute_job rt_ab api_403 5 (env_limit "5") demo_request []).1
  = Raise (APIException 403 "quotaExceeded")
  /\ served (@execute_job rt_ab api_403 5 (env_limit "5") demo_request []).2 = 2%nat.
Proof.
  destruct (@refusal_ends_job rt_ab api_403) as [_ Hjob].
  destruct (Hjob 5%nat (env_limit "5") demo_request [] 1%nat) as (Hres & Hsv & _).
  - vm_compute. split; lia.
  - vm_compute. discriminate.
  - split; [exact Hres|exact Hsv].
Defined.

(** ** C6: the scratch file *)



(** ** C7: the limit and the size of the output *)

(** C7 as stated fails in its bound: with LIMIT set to -1 a single page of
    one comment is returned, and 1 exceeds the limit plus the size of that
    page. *)
Lemma negative_limit_exceeds_bound :
  @fetch_run rt_ab (serve [ok body_b]) (-1) 0 0 [page_b]
  /\ (@execute_job rt_ab (serve [ok body_b]) 1 (env_limit "-1") demo_request []).1
     = Done (universal_newlines (@csv rt_ab (all_comments [page_b])))
  /\ ~ (Z.of_nat (length (all_comments [page_b]))
        <= -1 + Z.of_nat (length (comments page_b))).
Proof.
  split; [|split].
  - apply run_last; [vm_compute; reflexivity|left; reflexivity].
  - vm_compute. reflexivity.
  - vm_compute. intros Hle. now apply Hle.
Qed.

(** C7, amended: the limit does not cap the output.  There is a run whose
    returned text holds more records than the limit (two, with the limit
    1), the limit being tested only once a whole page is written.  In every
    run over well-formed pages whose records have a UTF-8 encoding the
    returned text holds the records of the fetched pages, and their number
    is at most max(limit, 0) plus the size of the last fetched page; every
    run that returns is such a run. *)
Theorem limit_overshoot `{PyRuntime} (api : nat -> Response) (fuel : nat)
    (environ : gmap string string) (request : Request)
    (access_token channel_id : string) (limit : Z) (tr : World)
    (pages : list Page) :
  form request !! "access_token" = Some access_token ->
  form request !! "channel_id" = Some channel_id ->
  py_int_of (environ !! "LIMIT") = Val limit ->
  fetch_run api limit (served tr) 0 pages ->
  Forall encodable (all_comments pages) -> (length pages <= fuel)%nat ->
  ((@execute_job rt_ab api_ab 1 (env_limit "1") demo_request []).1
   = Done (universal_newlines (@csv rt_ab (comments page_a)))
   /\ 1 < Z.of_nat (length (comments page_a)))
  /\ (execute_job api fuel environ request tr).1
     = Done (universal_newlines (csv (all_comments pages)))
  /\ Z.of_nat (length (all_comments pages))
     <= Z.max limit 0
        + Z.of_nat (length (comments
             (List.last pages {| comments := []; nextPageToken := JNull |})))
  /\ (forall fuel' s tr',
        execute_job api fuel' environ request tr = (Done s, tr') ->
        exists pages',
          fetch_run api limit (served tr) 0 pages'
          /\ Forall encodable (all_comments pages')
          /\ s = universal_newlines (csv (all_comments pages'))
          /\ Z.of_nat (length (all_comments pages'))
             <= Z.max limit 0
                + Z.of_nat (length (comments
                     (List.last pages'
                        {| comments := []; nextPageToken := JNull |})))).
Proof.
  intros Ha Hc Hl Hp Henc Hlen. split; [|split; [|split]].
  - split; [vm_compute; reflexivity|vm_compute; reflexivity].
  - now rewrite (execute_job_run api fuel environ request tr _ _ _ _
                   Ha Hc Hl Hp Henc Hlen).
  - apply fetch_run_bound in Hp. lia.
  - intros fuel' s tr' Hs.
    apply execute_job_done in Hs
      as (a & c & l & pages' & _ & _ & Hl' & Hp' & Henc' & _ & ->).
    rewrite Hl in Hl'. injection Hl' as <-.
    exists pages'. repeat split; try assumption.
    apply fetch_run_bound in Hp'. lia.
Qed.

Lemma limit_overshoot_witness :
  Z.of_nat (length (all_comments [page_a; page_b]))
  <= Z.max 5 0 + Z.of_nat (length (comments page_b)).
Proof.
  exact (proj1 (proj2 (proj2 (@limit_overshoot rt_ab api_ab 2 (env_limit "5")
                         demo_request "ya29" "UC1" 5 [] [page_a; page_b]
                         eq_refl eq_refl eq_refl fetch_run_ab encodable_ab
                         (Nat.le_refl 2))))).
Defined.

(** ** C8: one line for each record *)

(** C8 as stated fails in its conclusion: a display name with a line feed
    gives a text with two line feeds for one record. *)
Lemma display_name_line_feed :
  @fetch_run (table_runtime [body_lf]) (serve [ok body_lf]) 5 0 0 [page_lf]
  /\ (exists s,
        (@execute_job (table_runtime [body_lf]) (serve [ok body_lf]) 1
           (env_limit "5") demo_request []).1 = Done s
        /\ count_char LF s = 2%nat)
  /\ length (all_comments [page_lf]) = 1%nat.
Proof.
  split; [|split].
  - apply run_last; [vm_compute; reflexivity|left; reflexivity].
  - eexists. split; vm_compute; reflexivity.
  - reflexivity.
Qed.

(** C8, amended: before formatting, every carriage return of the comment's
    textOriginal is deleted and every line feed replaced by backslash-n, so
    the text of a record holds no line break; the record written for an
    item is the CSV line of its comment with that text.  When in addition
    no publishedAt and no authorDisplayName holds a carriage return or a
    line feed, the number of line feeds of the CSV a run returns equals the
    number of its records: of a run over well-formed pages whose records
    have a UTF-8 encoding, which returns, and of any run that returns. *)
Theorem one_line_per_record `{PyRuntime} (api : nat -> Response) (fuel : nat)
    (environ : gmap string string) (request : Request)
    (access_token channel_id : string) (limit : Z) (tr : World)
    (pages : list Page) :
  form request !! "access_token" = Some access_token ->
  form request !! "channel_id" = Some channel_id ->
  py_int_of (environ !! "LIMIT") = Val limit ->
  fetch_run api limit (served tr) 0 pages -> (length pages <= fuel)%nat ->
  (forall t,
     transformed t = replace_char LF "\n" (replace_char CR EmptyString t)
     /\ count_char CR (transformed t) = O
     /\ count_char LF (transformed t) = O)
  /\ (forall item line,
        record_of item = Val line ->
        exists c, comment_of item = Some c /\ line = csv_line c)
  /\ (Forall encodable (all_comments pages) ->
      Forall one_line (all_comments pages) ->
      exists s,
        (execute_job api fuel environ request tr).1 = Done s
        /\ count_char LF s = length (all_comments pages))
  /\ (forall s tr',
        execute_job api fuel environ request tr = (Done s, tr') ->
        Forall one_line (all_comments pages) ->
        count_char LF s = length (all_comments pages)).
Proof.
  intros Ha Hc Hl Hp Hlen. split; [|split; [|split]].
  - intros t. split; [reflexivity|].
    split; [apply transformed_no_cr|apply transformed_no_lf].
  - intros item line. apply record_of_comment.
  - intros Henc Hone.
    rewrite (execute_job_run api fuel environ request tr _ _ _ _
               Ha Hc Hl Hp Henc Hlen).
    eexists. split; [reflexivity|].
    rewrite universal_newlines_id
      by (apply csv_no_cr; now apply one_line_no_cr).
    now apply csv_count_lf.
  - intros s tr' Hs Hone.
    apply execute_job_done in Hs
      as (a & c & l & pages' & _ & _ & Hl' & Hp' & _ & _ & ->).
    rewrite Hl in Hl'. injection Hl' as <-.
    rewrite (fetch_run_unique api limit _ _ _ _ Hp Hp').
    rewrite (fetch_run_unique api limit _ _ _ _ Hp Hp') in Hone.
    rewrite universal_newlines_id
      by (apply csv_no_cr; now apply one_line_no_cr).
    now apply csv_count_lf.
Qed.

Lemma one_line_ab : @Forall Comment (@one_line rt_ab) (all_comments [page_a; page_b]).
Proof. repeat constructor. Qed.

Lemma one_line_per_record_witness :
  exists s,
    (@execute_job rt_ab api_ab 2 (env_limit "5") demo_request []).1 = Done s
    /\ count_char LF s = 3%nat.
Proof.
  exact (proj1 (proj2 (proj2 (@one_line_per_record rt_ab api_ab 2 (env_limit "5")
                                demo_request "ya29" "UC1" 5 [] [page_a; page_b]
                                eq_refl eq_refl eq_refl fetch_run_ab
                                (Nat.le_refl 2))))
           encodable_ab one_line_ab).
Defined.

(** ** C9: the same inputs give the same text *)

Section Determinism.
Context `{PyRuntime}.
Variable api : nat -> Response.

(** more fuel does not change a job that has ended *)
Lemma execute_job_fuel fuel fuel' environ request tr res tr' :
  execute_job api fuel environ request tr = (res, tr') ->
  res <> Spin -> (fuel <= fuel')%nat ->
  execute_job api fuel' environ request tr = (res, tr').
Proof.
  unfold execute_job. intros Hrun Hne Hle.
  destruct (form_get request "access_token") as [a|]; [|exact Hrun].
  destruct (form_get request "channel_id") as [c|]; [|exact Hrun].
  destruct (py_int_of (environ !! "LIMIT")) as [l|]; [|exact Hrun].
  cbn in *. now apply fetch_loop_fuel with (fuel := fuel).
Qed.

End Determinism.

(** C9: two runs of [execute_job] against the same sequence of responses,
    with the same access_token and channel_id in the form and the same
    LIMIT, whatever else the requests and the environments hold, do the
    same at every step; if both return, they return the same text, however
    long either was run. *)
Theorem same_inputs_same_csv `{PyRuntime} (api : nat -> Response)
    (environ1 environ2 : gmap string string) (request1 request2 : Request)
    (tr : World) :
  form request1 !! "access_token" = form request2 !! "access_token" ->
  form request1 !! "channel_id" = form request2 !! "channel_id" ->
  environ1 !! "LIMIT" = environ2 !! "LIMIT" ->
  (forall fuel,
     execute_job api fuel environ1 request1 tr
     = execute_job api fuel environ2 request2 tr)
  /\ (forall fuel1 fuel2 s1 s2 tr1 tr2,
        execute_job api fuel1 environ1 request1 tr = (Done s1, tr1) ->
        execute_job api fuel2 environ2 request2 tr = (Done s2, tr2) ->
        s1 = s2).
Proof.
  intros Ha Hc Hl.
  assert (forall fuel,
            execute_job api fuel environ1 request1 tr
            = execute_job api fuel environ2 request2 tr) as Hsame.
  { intros fuel. unfold execute_job, form_get. now rewrite Ha, Hc, Hl. }
  split; [exact Hsame|].
  intros fuel1 fuel2 s1 s2 tr1 tr2 H1 H2. rewrite <- Hsame in H2.
  destruct (Nat.le_ge_cases fuel1 fuel2) as [Hle|Hle].
  - apply (execute_job_fuel api _ fuel2) in H1; [|discriminate|assumption].
    congruence.
  - apply (execute_job_fuel api _ fuel1) in H2; [|discriminate|assumption].
    congruence.
Qed.

Lemma same_inputs_same_csv_witness :
  @execute_job rt_ab api_ab 5 (env_limit "5") demo_request []
  = @execute_job rt_ab api_ab 5 (other_env "5") other_request [].
Proof.
  apply (@same_inputs_same_csv rt_ab api_ab (env_limit "5") (other_env "5")
           demo_request other_request []); vm_compute; reflexivity.
Defined.

(** ** C10: the token exchange *)

(** C10 as stated fails: the token endpoint answers with status 200 and a
    body without refresh_token, and [get_tokens] raises [KeyError] instead
    of returning a dictionary. *)
Lemma token_reply_without_refresh :
  status_code (serve [ok body_no_refresh] O) = 200
  /\ (@get_tokens (table_runtime [body_no_refresh]) (serve [ok body_no_refresh])
        (env_limit "5") code_request []).1
     = Raise (KeyError "refresh_token").
Proof. split; vm_compute; reflexivity. Qed.

(** C10, amended: with a code in the form, [get_tokens] answers a status
    200 whose body is a JSON object with the keys access_token and
    refresh_token with success True, status_code 200, the two values of the
    body and an empty message; for every other status it returns success
    False, that status code, access_token and refresh_token both [None] and
    the response body as the message.  A dictionary it returns has success
    True exactly when the status is 200. *)
Theorem get_tokens_result `{PyRuntime} (api : nat -> Response)
    (environ : gmap string string) (request : Request) (code : string)
    (tr : World) :
  form request !! "code" = Some code ->
  (forall kv a r,
     status_code (api (served tr)) = 200 ->
     json_loads (text (api (served tr))) = Some (JObj kv) ->
     assoc "access_token" kv = Some a ->
     assoc "refresh_token" kv = Some r ->
     (get_tokens api environ request tr).1
     = Done {| success := true; tk_status_code := 200; access_token := a;
               refresh_token := r; message := EmptyString |})
  /\ (status_code (api (served tr)) <> 200 ->
      (get_tokens api environ request tr).1
      = Done {| success := false;
                tk_status_code := status_code (api (served tr));
                access_token := JNull; refresh_token := JNull;
                message := text (api (served tr)) |})
  /\ (forall t,
        (get_tokens api environ request tr).1 = Done t ->
        (success t = true <-> status_code (api (served tr)) = 200)
        /\ tk_status_code t = status_code (api (served tr))).
Proof.
  intros Hcode.
  assert (forall w,
            get_tokens api environ request w
            = let r := api (served w) in
              let w1 := w ++ [Http {| verb := "POST";
                                      url := "https://oauth2.googleapis.com/token";
                                      params := [("code", JStr code);
                                                 ("grant_type", JStr "authorization_code");
                                                 ("client_secret", environ_get environ "CLIENT_SECRET");
                                                 ("client_id", environ_get environ "CLIENT_ID");
                                                 ("redirect_uri", environ_get environ "REDIRECT_URI")];
                                      headers := [("Content-Type", "application/json")] |}] in
              if status_code r =? 200 then
                match (result ← loads (text r);
                       a ← py_getitem result "access_token";
                       rf ← py_getitem result "refresh_token";
                       Val (a, rf)) with
                | Val (a, rf) =>
                    (Done {| success := true; tk_status_code := 200;
                             access_token := a; refresh_token := rf;
                             message := EmptyString |}, w1)
                | Exn e => (Raise e, w1)
                end
              else (Done {| success := false; tk_status_code := status_code r;
                            access_token := JNull; refresh_token := JNull;
                            message := text r |}, w1)) as Hget.
  { intros w. unfold get_tokens, form_get. rewrite Hcode, bind_lift, bind_M.
    unfold requests_post, http. cbv beta iota zeta.
    destruct (status_code (api (served w)) =? 200); [|reflexivity].
    rewrite bind_lift. destruct (loads _) as [result|]; [|reflexivity].
    cbn -[py_getitem]. rewrite bind_lift.
    destruct (py_getitem result "access_token"); [|reflexivity].
    cbn -[py_getitem]. rewrite bind_lift.
    destruct (py_getitem result "refresh_token"); reflexivity. }
  rewrite Hget. cbn zeta. split; [|split].
  - intros kv a r Hs Hb Ha Hr. rewrite Hs. cbn. unfold loads. rewrite Hb.
    cbn. rewrite Ha. cbn. rewrite Hr. reflexivity.
  - intros Hs. destruct (Z.eqb_spec (status_code (api (served tr))) 200);
      [contradiction|reflexivity].
  - intros t.
    destruct (Z.eqb_spec (status_code (api (served tr))) 200) as [Hs|Hs].
    + destruct (_ ← loads _; _) as [[a rf]|e]; [|discriminate].
      intros [= <-]. cbn. rewrite Hs. tauto.
    + intros [= <-]. cbn. split; [|reflexivity]. split; [discriminate|contradiction].
Qed.

Lemma get_tokens_result_witness :
  (@get_tokens (table_runtime [body_tokens]) (serve [ok body_tokens])
     (env_limit "5") code_request []).1
  = Done {| success := true; tk_status_code := 200; access_token := JStr "ya29";
            refresh_token := JStr "1//0g"; message := EmptyString |}.
Proof.
  destruct (@get_tokens_result (table_runtime [body_tokens]) (serve [ok body_tokens])
              (env_limit "5") code_request "4/0A" [] eq_refl) as [Hok _].
  apply (Hok [("access_token", JStr "ya29"); ("refresh_token", JStr "1//0g")]);
    vm_compute; reflexivity.
Defined.

(** * Further properties of the code *)

(** ** The job before its first request *)

(** X1: [execute_job] reads the form fields access_token and channel_id and
    the limit, in this order, before anything else: a missing access_token
    raises [KeyError], then a missing channel_id, then an unset LIMIT raises
    [TypeError] and a LIMIT that is no integer [ValueError]; in each case
    no request has been made. *)
Theorem execute_job_missing_input `{PyRuntime} (api : nat -> Response)
    (fuel : nat) (environ : gmap string string) (request : Request)
    (tr : World) :
  (form request !! "access_token" = None ->
   execute_job api fuel environ request tr
   = (Raise (KeyError "access_token"), tr))
  /\ (is_Some (form request !! "access_token") ->
      form request !! "channel_id" = None ->
      execute_job api fuel environ request tr
      = (Raise (KeyError "channel_id"), tr))
  /\ (is_Some (form request !! "access_token") ->
      is_Some (form request !! "channel_id") ->
      environ !! "LIMIT" = None ->
      execute_job api fuel environ request tr = (Raise TypeError, tr))
  /\ (is_Some (form request !! "access_token") ->
      is_Some (form request !! "channel_id") ->
      forall s, environ !! "LIMIT" = Some s -> py_int s = None ->
      execute_job api fuel environ request tr = (Raise ValueError, tr)).
Proof.
  unfold execute_job, form_get, py_int_of. repeat split.
  - intros ->. reflexivity.
  - intros [a ->] ->. reflexivity.
  - intros [a ->] [c ->] ->. reflexivity.
  - intros [a ->] [c ->] s -> ->. reflexivity.
Qed.

Lemma execute_job_missing_input_witness :
  @execute_job rt_ab api_ab 5 (env_limit "5") no_token_request []
  = (Raise (KeyError "access_token"), []).
Proof.
  exact (proj1 (@execute_job_missing_input rt_ab api_ab 5 (env_limit "5")
                  no_token_request []) eq_refl).
Defined.

(** ** The returned text *)

Lemma universal_newlines_no_cr_upto n : forall s,
  (String.length s <= n)%nat -> count_char CR (universal_newlines s) = O.
Proof.
  induction n as [|n IH]; intros [|c s] Hlen; try reflexivity;
    try (simpl in Hlen; lia).
  simpl in Hlen. cbn [universal_newlines].
  destruct (Ascii.eqb c CR) eqn:Hc.
  - cbn [count_char]. change (Ascii.eqb LF CR) with false. cbn [Nat.add].
    destruct s as [|d s]; [reflexivity|].
    simpl in Hlen. destruct (Ascii.eqb d LF); apply IH; simpl; lia.
  - cbn [count_char]. rewrite Hc. cbn [Nat.add]. apply IH. lia.
Qed.

Lemma universal_newlines_no_cr s : count_char CR (universal_newlines s) = O.
Proof. now apply (universal_newlines_no_cr_upto (String.length s)). Qed.

Lemma universal_newlines_lf_upto n : forall s,
  (String.length s <= n)%nat ->
  (count_char LF s <= count_char LF (universal_newlines s))%nat.
Proof.
  induction n as [|n IH]; intros [|c s] Hlen; try reflexivity;
    try (simpl in Hlen; lia).
  simpl in Hlen. cbn [universal_newlines].
  destruct (Ascii.eqb c CR) eqn:Hc.
  - apply Ascii.eqb_eq in Hc as ->. cbn [count_char].
    change (Ascii.eqb CR LF) with false. change (Ascii.eqb LF LF) with true.
    destruct s as [|d s]; [simpl; lia|].
    simpl in Hlen. cbn [count_char].
    destruct (Ascii.eqb d LF).
    + assert (count_char LF s <= count_char LF (universal_newlines s))%nat
        by (apply IH; lia). lia.
    + assert (count_char LF (String d s)
              <= count_char LF (universal_newlines (String d s)))%nat as Hd
        by (apply IH; simpl; lia).
      cbn [count_char] in Hd. lia.
  - cbn [count_char].
    assert (count_char LF s <= count_char LF (universal_newlines s))%nat
      by (apply IH; lia). lia.
Qed.

Lemma universal_newlines_lf s :
  (count_char LF s <= count_char LF (universal_newlines s))%nat.
Proof. now apply (universal_newlines_lf_upto (String.length s)). Qed.

Section Returned.
Context `{PyRuntime}.
Variable api : nat -> Response.

Lemma csv_lf_lower cs : (length cs <= count_char LF (csv cs))%nat.
Proof.
  unfold csv. induction cs as [|x cs IH]; [reflexivity|].
  cbn [map sconcat length]. rewrite count_char_app, count_csv_line by reflexivity.
  change (Ascii.eqb LF LF) with true. cbv iota. lia.
Qed.

End Returned.

(** X2: the text [execute_job] returns never holds a carriage return,
    whatever the responses held: the scratch file is read back in text
    mode. *)
Theorem returned_text_has_no_cr `{PyRuntime} (api : nat -> Response)
    (fuel : nat) (environ : gmap string string) (request : Request)
    (tr : World) (s : string) (tr' : World) :
  execute_job api fuel environ request tr = (Done s, tr') ->
  count_char CR s = O.
Proof.
  intros Hs.
  apply execute_job_done in Hs as (a & c & l & pages & _ & _ & _ & _ & _ & _ & ->).
  apply universal_newlines_no_cr.
Qed.

Lemma returned_text_has_no_cr_witness :
  count_char CR (@csv (table_runtime [body_cr]) (comments page_lf)) = O.
Proof.
  eapply (@returned_text_has_no_cr (table_runtime [body_cr]) (serve [ok body_cr])
            1 (env_limit "5") demo_request []).
  vm_compute. reflexivity.
Defined.

(** X3: the returned text has at least one line feed for every record: a
    run that returns has fetched well-formed pages, and the comments of
    those pages are no more than the line feeds of the text. *)
Theorem records_at_most_newlines `{PyRuntime} (api : nat -> Response)
    (fuel : nat) (environ : gmap string string) (request : Request)
    (tr : World) (s : string) (tr' : World) :
  execute_job api fuel environ request tr = (Done s, tr') ->
  exists limit pages,
    py_int_of (environ !! "LIMIT") = Val limit
    /\ fetch_run api limit (served tr) 0 pages
    /\ (length (all_comments pages) <= count_char LF s)%nat.
Proof.
  intros Hs.
  apply execute_job_done in Hs
    as (a & c & l & pages & _ & _ & Hl & Hp & _ & _ & ->).
  exists l, pages. repeat split; try assumption.
  etransitivity; [apply csv_lf_lower|apply universal_newlines_lf].
Qed.

Lemma records_at_most_newlines_witness :
  exists limit pages,
    @py_int_of rt_ab (env_limit "5" !! "LIMIT") = Val limit
    /\ @fetch_run rt_ab api_ab limit 0 0 pages
    /\ (length (all_comments pages)
        <= count_char LF (universal_newlines
                            (@csv rt_ab (all_comments [page_a; page_b]))))%nat.
Proof.
  apply (@records_at_most_newlines rt_ab api_ab 2 (env_limit "5") demo_request []
           _ ([] ++ @fetch_events rt_ab "UC1" "ya29" JNull [page_a; page_b]
                 ++ [Seek 0; Read])).
  apply (@execute_job_run rt_ab api_ab 2 (env_limit "5") demo_request [] "ya29" "UC1" 5
           [page_a; page_b] eq_refl eq_refl eq_refl fetch_run_ab encodable_ab
           (Nat.le_refl 2)).
Defined.

(** ** Termination *)

(** X4: when every response holds at least one item, the job ends: run
    for more than max(limit, 0) + 1 rounds it has returned or raised. *)
Theorem nonempty_pages_terminate `{PyRuntime} (api : nat -> Response)
    (fuel : nat) (environ : gmap string string) (request : Request)
    (limit : Z) (tr : World) :
  py_int_of (environ !! "LIMIT") = Val limit ->
  (forall i, (served tr <= i)%nat -> (1 <= page_size (api i))%nat) ->
  Z.max limit 0 + 1 < Z.of_nat fuel ->
  (execute_job api fuel environ request tr).1 <> Spin.
Proof.
  intros Hl Hpages Hfuel.
  destruct (execute_job_cases api fuel environ request tr)
    as [(e & He)|(a & c & l & Ha & Hc & Hl' & He)]; rewrite He;
    [discriminate|].
  rewrite Hl in Hl'. injection Hl' as <-.
  destruct (fetch_loop_loop_run api limit c a fuel TemporaryFile JNull 0 tr)
    as (k & _ & Hrun & Hspin).
  intros Hs. apply Hspin in Hs. subst k.
  apply loop_run_bound in Hrun; [lia|].
  intros i Hi _. now apply Hpages.
Qed.

Lemma nonempty_pages_terminate_witness :
  (@execute_job rt_b_forever api_b_forever 8 (env_limit "5") demo_request []).1
  <> Spin.
Proof.
  apply (@nonempty_pages_terminate rt_b_forever api_b_forever 8 (env_limit "5")
           demo_request 5 [] eq_refl).
  - intros i _. vm_compute. lia.
  - vm_compute. reflexivity.
Defined.

(** ** What every request carries *)

(** X5: every request of a job goes out with the same credentials: the
    header authorization is Bearer followed by the form's access_token, and
    the parameters part, allThreadsRelatedToChannelId and textFormat are
    snippet, the form's channel_id and plainText. *)
Theorem requests_carry_credentials `{PyRuntime} (api : nat -> Response)
    (fuel : nat) (environ : gmap string string) (request : Request)
    (access_token channel_id : string) (tr : World) :
  form request !! "access_token" = Some access_token ->
  form request !! "channel_id" = Some channel_id ->
  exists cs,
    calls (execute_job api fuel environ request tr).2 = calls tr ++ cs
    /\ Forall (fun c =>
                 headers c = [("authorization", "Bearer " +:+ access_token)]
                 /\ assoc "part" (params c) = Some (JStr "snippet")
                 /\ assoc "allThreadsRelatedToChannelId" (params c)
                    = Some (JStr channel_id)
                 /\ assoc "textFormat" (params c) = Some (JStr "plainText"))
         cs.
Proof.
  intros Ha Hc.
  destruct (execute_job_cases api fuel environ request tr)
    as [(e & He)|(a & c & l & Ha' & Hc' & Hl & He)]; rewrite He.
  - exists []. cbn. rewrite app_nil_r. split; [reflexivity|constructor].
  - rewrite Ha in Ha'. rewrite Hc in Hc'. injection Ha' as <-. injection Hc' as <-.
    destruct (fetch_loop_loop_run api l channel_id access_token fuel
                TemporaryFile JNull 0 tr) as (k & _ & Hrun & _).
    apply loop_run_calls in Hrun as (cs & Hcs & _ & Hfirst & Hlater).
    exists cs. split; [assumption|].
    apply Forall_forall. intros cc Hin.
    assert (exists t, cc = call_of channel_id access_token t) as [t ->].
    { apply list_elem_of_lookup in Hin as [[|i] Hi].
      - apply Hfirst in Hi. eauto.
      - apply Hlater in Hi as (next & _ & _ & _ & _ & ->). eauto. }
    repeat split; reflexivity.
Qed.

Lemma requests_carry_credentials_witness :
  exists cs,
    calls (@execute_job rt_ab api_ab 5 (env_limit "5") demo_request []).2
    = calls [] ++ cs
    /\ Forall (fun c =>
                 headers c = [("authorization", "Bearer " +:+ "ya29")]
                 /\ assoc "part" (params c) = Some (JStr "snippet")
                 /\ assoc "allThreadsRelatedToChannelId" (params c)
                    = Some (JStr "UC1")
                 /\ assoc "textFormat" (params c) = Some (JStr "plainText"))
         cs.
Proof.
  exact (@requests_carry_credentials rt_ab api_ab 5 (env_limit "5") demo_request
           "ya29" "UC1" [] eq_refl eq_refl).
Defined.

(** ** The transformation of the text *)

Lemma replace_char_app c new s t :
  replace_char c new (s +:+ t) = replace_char c new s +:+ replace_char c new t.
Proof.
  induction s as [|d s IH]; [reflexivity|].
  rewrite app_cons. simpl. rewrite IH.
  destruct (Ascii.eqb d c); [now rewrite app_assoc'|reflexivity].
Qed.

Lemma replace_char_absent c new s :
  count_char c s = O -> replace_char c new s = s.
Proof.
  induction s as [|d s IH]; [reflexivity|]. simpl.
  destruct (Ascii.eqb d c); [discriminate|]. intros Hs. now rewrite IH.
Qed.

Lemma transformed_app s t :
  transformed (s +:+ t) = transformed s +:+ transformed t.
Proof. unfold transformed. now rewrite !replace_char_app. Qed.

(** X6: the transformation of textOriginal distributes over concatenation
    and leaves a transformed text as it is. *)
Theorem transformed_compose (s t : string) :
  transformed (s +:+ t) = transformed s +:+ transformed t
  /\ transformed (transformed t) = transformed t.
Proof.
  split; [apply transformed_app|].
  unfold transformed at 1.
  rewrite (replace_char_absent CR) by apply transformed_no_cr.
  apply replace_char_absent, transformed_no_lf.
Qed.

(** X7: the transformation loses information: a line feed and the two
    characters backslash and n give the same record text, and a carriage
    return leaves no trace, wherever they stand. *)
Theorem transformed_collapses (s t : string) :
  transformed (s +:+ String LF t) = transformed (s +:+ "\n" +:+ t)
  /\ transformed (s +:+ String CR t) = transformed (s +:+ t)
  /\ s +:+ String LF t <> s +:+ "\n" +:+ t.
Proof.
  split; [|split].
  - rewrite !transformed_app. reflexivity.
  - rewrite !transformed_app. reflexivity.
  - intros Heq. apply String.app_inj in Heq. discriminate.
Qed.

(** ** The token exchange *)

(** X8: without a code in the form [get_tokens] raises [KeyError] and
    makes no request.  With one it makes exactly one request, whatever the
    answer: a POST to the token endpoint whose parameters are the code, the
    grant type authorization_code and the client secret, client id and
    redirect URI of the environment, [None] for those that are unset. *)
Theorem get_tokens_request `{PyRuntime} (api : nat -> Response)
    (environ : gmap string string) (request : Request) (tr : World) :
  (form request !! "code" = None ->
   get_tokens api environ request tr = (Raise (KeyError "code"), tr))
  /\ (forall code,
        form request !! "code" = Some code ->
        (get_tokens api environ request tr).2
        = tr ++ [Http {| verb := "POST";
                         url := "https://oauth2.googleapis.com/token";
                         params :=
                           [("code", JStr code);
                            ("grant_type", JStr "authorization_code");
                            ("client_secret", environ_get environ "CLIENT_SECRET");
                            ("client_id", environ_get environ "CLIENT_ID");
                            ("redirect_uri", environ_get environ "REDIRECT_URI")];
                         headers := [("Content-Type", "application/json")] |}]).
Proof.
  unfold get_tokens, form_get. split.
  - intros ->. reflexivity.
  - intros code ->. rewrite bind_lift, bind_M.
    unfold requests_post, http. cbv beta iota zeta.
    destruct (status_code (api (served tr)) =? 200); [|reflexivity].
    rewrite bind_lift. destruct (loads _) as [result|]; [|reflexivity].
    cbn -[py_getitem]. rewrite bind_lift.
    destruct (py_getitem result "access_token"); [|reflexivity].
    cbn -[py_getitem]. rewrite bind_lift.
    destruct (py_getitem result "refresh_token"); reflexivity.
Qed.

Lemma get_tokens_request_witness :
  served (@get_tokens (table_runtime [body_tokens]) (serve [ok body_tokens])
            (env_limit "5") code_request []).2 = 1%nat.
Proof.
  rewrite (proj2 (@get_tokens_request (table_runtime [body_tokens])
                    (serve [ok body_tokens]) (env_limit "5") code_request [])
             "4/0A" eq_refl).
  reflexivity.
Defined.

(** ** Responses that are not pages *)

Section BadPages.
Context `{PyRuntime}.
Variable api : nat -> Response.

Lemma page_head_not_object r v :
  json_loads (text r) = Some v -> (forall kv, v <> JObj kv) ->
  page_head r = Exn TypeError.
Proof.
  intros Hv Hno. unfold page_head, loads. rewrite Hv. cbn -[next_of].
  destruct v; try reflexivity.
  - unfold next_of. cbn. destruct (str_contains _ _); reflexivity.
  - unfold next_of. cbn. destruct (existsb _ _); reflexivity.
  - now destruct (Hno kv).
Qed.

End BadPages.

(** X9: a response with status 200 whose body is not a page makes
    [list_comments] raise after its one request, with nothing written: a
    body that is not JSON raises [ValueError], JSON that is not an object
    [TypeError], an object without items [KeyError]. *)
Theorem list_comments_bad_body `{PyRuntime} (api : nat -> Response)
    (f : TempFile) (token : json) (channel_id access_token : string)
    (tr : World) :
  status_code (api (served tr)) = 200 ->
  (json_loads (text (api (served tr))) = None ->
   list_comments api f token channel_id access_token tr
   = (Raise ValueError, tr ++ [Http (call_of channel_id access_token token)]))
  /\ (forall v,
        json_loads (text (api (served tr))) = Some v ->
        (forall kv, v <> JObj kv) ->
        list_comments api f token channel_id access_token tr
        = (Raise TypeError, tr ++ [Http (call_of channel_id access_token token)]))
  /\ (forall kv,
        json_loads (text (api (served tr))) = Some (JObj kv) ->
        assoc "items" kv = None ->
        list_comments api f token channel_id access_token tr
        = (Raise (KeyError "items"),
           tr ++ [Http (call_of channel_id access_token token)])).
Proof.
  intros Hs. rewrite list_comments_round. unfold round. rewrite Hs.
  change (200 =? 200) with true. cbv iota. split; [|split].
  - intros Hn. unfold page_head, loads. rewrite Hn. reflexivity.
  - intros v Hv Hno. now rewrite (page_head_not_object _ _ Hv Hno).
  - intros kv Hv Hi. unfold page_head, loads. rewrite Hv.
    cbn -[next_of]. rewrite next_of_object. cbn. rewrite Hi. reflexivity.
Qed.

Lemma list_comments_bad_body_witness :
  @list_comments rt_ab (serve [{| status_code := 200; text := "<html>" |}])
    TemporaryFile JNull "UC1" "ya29" []
  = (Raise ValueError, [] ++ [Http (call_of "UC1" "ya29" JNull)]).
Proof.
  apply (@list_comments_bad_body rt_ab
           (serve [{| status_code := 200; text := "<html>" |}]) TemporaryFile
           JNull "UC1" "ya29" [] eq_refl).
  vm_compute. reflexivity.
Defined.

(** X10: the first item of a page that cannot be made into a record, or
    whose record has no UTF-8 encoding, ends [list_comments] in the middle
    of the page: the records of the items before it have been written, the
    exception of the item, or [UnicodeEncodeError] for the record, is
    raised, and the file is not flushed. *)
Theorem list_comments_bad_item `{PyRuntime} (api : nat -> Response)
    (f : TempFile) (token : json) (channel_id access_token : string)
    (tr : World) (next : json) (good : list json) (bad : json)
    (rest : list json) (cs : list Comment) :
  status_code (api (served tr)) = 200 ->
  page_head (api (served tr)) = Val (next, good ++ bad :: rest) ->
  comments_of good = Some cs ->
  Forall encodable cs ->
  (forall e,
     record_of bad = Exn e ->
     list_comments api f token channel_id access_token tr
     = (Raise e,
        tr ++ Http (call_of channel_id access_token token)
           :: map Write (map csv_line cs)))
  /\ (forall c,
        comment_of bad = Some c -> ~ encodable c ->
        list_comments api f token channel_id access_token tr
        = (Raise UnicodeEncodeError,
           tr ++ Http (call_of channel_id access_token token)
              :: map Write (map csv_line cs))).
Proof.
  intros Hs Hh Hg Henc. rewrite list_comments_round. unfold round.
  rewrite Hs, Hh. change (200 =? 200) with true. cbv iota.
  rewrite (lines_of_stop _ _ _ _ Hg Henc). split.
  - intros e ->. now rewrite <- app_assoc.
  - intros c Hc Hno.
    assert (record_of bad = Val (csv_line c)) as ->
      by (apply record_of_comment; eauto).
    unfold encodable in Hno.
    destruct (utf8_valid (csv_line c)); [now destruct Hno|].
    now rewrite <- app_assoc.
Qed.

Lemma list_comments_bad_item_witness :
  @list_comments (table_runtime [body_bad_item]) (serve [ok body_bad_item])
    TemporaryFile JNull "UC1" "ya29" []
  = (Raise (KeyError "topLevelComment"),
     [] ++ Http (call_of "UC1" "ya29" JNull)
        :: map Write (map (@csv_line (table_runtime [body_bad_item]))
                        [comment "2023-01-08T00:00:00Z" "cy" "bye"]))
  /\ @list_comments (table_runtime [body_surrogate]) (serve [ok body_surrogate])
       TemporaryFile JNull "UC1" "ya29" []
     = (Raise UnicodeEncodeError,
        [] ++ Http (call_of "UC1" "ya29" JNull)
           :: map Write (map (@csv_line (table_runtime [body_surrogate]))
                           [comment "2023-01-08T00:00:00Z" "cy" "bye"])).
Proof.
  split.
  - refine (proj1 (@list_comments_bad_item (table_runtime [body_bad_item])
                     (serve [ok body_bad_item]) TemporaryFile JNull "UC1" "ya29" []
                     JNull [item "2023-01-08T00:00:00Z" "cy" "bye"]
                     (JObj [("snippet", JObj [])]) []
                     [comment "2023-01-08T00:00:00Z" "cy" "bye"] _ _ _ _)
              (KeyError "topLevelComment") _);
      try (vm_compute; reflexivity).
    repeat (constructor; [vm_compute; reflexivity|]). constructor.
  - refine (proj2 (@list_comments_bad_item (table_runtime [body_surrogate])
                     (serve [ok body_surrogate]) TemporaryFile JNull "UC1" "ya29" []
                     JNull [item "2023-01-08T00:00:00Z" "cy" "bye"]
                     (item "2023-01-08T00:01:00Z" "di" lone_surrogate) []
                     [comment "2023-01-08T00:00:00Z" "cy" "bye"] _ _ _ _)
              (comment "2023-01-08T00:01:00Z" "di" lone_surrogate) _ _);
      try (vm_compute; reflexivity).
    + repeat (constructor; [vm_compute; reflexivity|]). constructor.
    + vm_compute. discriminate.
Defined.

(** ** The exception of a refused request *)

(** X11: the message of [APIException(code, text)] is the fixed text of
    the source followed by the status code, the word message and the
    response body, with nothing between the word and the body. *)
Theorem api_message_text `{PyRuntime} (code : Z) (text : string) :
  api_message code text
  = Val ("APIの呼出でエラーが発生しました。status:" +:+ field_str (JInt code)
         +:+ ", message" +:+ text).
Proof.
  unfold api_message. rewrite <- (app_empty_r text) at 2. reflexivity.
Qed.

(** ** The entry points *)

Lemma format_disposition `{PyRuntime} c :
  py_format "attachment; filename=comment_{}.csv" [JStr c]
  = Val ("attachment; filename=comment_" +:+ c +:+ ".csv").
Proof. cbn. reflexivity. Qed.

Lemma utf8_first_counts s :
  utf8_valid s = true -> s <> EmptyString -> code_points s <> O.
Proof.
  destruct s as [|c s]; [congruence|]. intros Hv _.
  unfold utf8_valid in Hv. cbn [utf8_scan code_points] in *.
  destruct (N.ltb_spec (N_of_ascii c) 128) as [Hlt|Hge]; [cbn; lia|].
  destruct (N.leb_spec 192 (N_of_ascii c)) as [|Hlow]; [cbn; lia|].
  exfalso.
  repeat match type of Hv with
         | (if ?b then _ else _) = true =>
             let Hb := fresh "Hb" in
             destruct b eqn:Hb;
             [try (apply andb_true_iff in Hb as [Hb _]);
              first [apply N.leb_le in Hb | apply N.eqb_eq in Hb]; lia|]
         end.
  discriminate.
Qed.

Section Entry.
Context `{PyRuntime} `{WebRuntime}.
Variable api : nat -> Response.
Variable environ : gmap string string.
Variable files : gmap string string.

Lemma on_error_returns request response e w :
  exists r, on_error files request response e w = (Ret (Resp r), w).
Proof.
  unfold on_error. destruct (files !! "./form.html"); [|eauto].
  destruct (_ ← form_get request "access_token"; _) as [r|]; [|eauto].
  destruct (set_header r _ _); eauto.
Qed.

Lemma do_post_job fuel request w :
  is_Some (form request !! "channel_id") ->
  do_post api environ files fuel request w
  = match execute_job api fuel environ request w with
    | (Done csv, w1) =>
        match fill_response request make_response csv with
        | (response, None) => (Ret (Resp response), w1)
        | (response, Some e) => on_error files request response e w1
        end
    | (Raise e, w1) => on_error files request make_response e w1
    | (Spin, w1) => (Going, w1)
    end.
Proof. intros Hc. unfold do_post. now rewrite bool_decide_eq_true_2. Qed.

(** the [try] block after a job that returned: the three assignments go
    through when the channel id has no line break in it, and the last of
    them is refused when it has one *)
Lemma fill_response_cases request csv c :
  form request !! "channel_id" = Some c -> utf8_valid csv = true ->
  fill_response request make_response csv
  = if Nat.eqb (count_char CR c + count_char LF c) 0 then
      ({| data := csv;
          set_headers :=
            <["Content-Disposition" :=
                "attachment; filename=comment_" +:+ c +:+ ".csv"]>
              (<["Content-Type" := "application/octet-stream"]> ∅) |}, None)
    else
      ({| data := csv;
          set_headers := <["Content-Type" := "application/octet-stream"]> ∅ |},
       Some ValueError).
Proof.
  intros Hc Hv. unfold fill_response, set_data. rewrite Hv.
  change (set_header _ "Content-Type" "application/octet-stream")
    with (Val {| data := csv;
                 set_headers := <["Content-Type" := "application/octet-stream"]>
                                  (set_headers make_response) |}).
  cbv iota. unfold form_get. rewrite Hc.
  cbv beta iota delta [mbind pyres_bind]. rewrite format_disposition.
  cbv beta iota. unfold set_header.
  rewrite !count_char_app.
  change (count_char CR "attachment; filename=comment_") with O.
  change (count_char LF "attachment; filename=comment_") with O.
  change (count_char CR ".csv") with O.
  change (count_char LF ".csv") with O.
  rewrite !Nat.add_0_l, !Nat.add_0_r.
  destruct (Nat.eqb _ 0); reflexivity.
Qed.

(** the text of a run can be encoded, its records being so *)
Lemma csv_valid (cs : list Comment) :
  Forall encodable cs -> utf8_valid (universal_newlines (csv cs)) = true.
Proof.
  intros Henc. apply utf8_valid_universal, utf8_valid_sconcat.
  induction Henc as [|c cs Hc _ IH]; constructor; assumption.
Qed.

(** the calls of a job are those [list_comments] makes *)
Lemma execute_job_call_of fuel request tr :
  exists cs,
    calls (execute_job api fuel environ request tr).2 = calls tr ++ cs
    /\ Forall (fun c => verb c = "GET"
                 /\ url c = "https://www.googleapis.com/youtube/v3/commentThreads")
         cs.
Proof.
  destruct (execute_job_cases api fuel environ request tr)
    as [(e & He)|(a & c & l & Ha & Hc & Hl & He)]; rewrite He.
  - exists []. cbn. rewrite app_nil_r. split; [reflexivity|constructor].
  - destruct (fetch_loop_loop_run api l c a fuel TemporaryFile JNull 0 tr)
      as (k & _ & Hrun & _).
    apply loop_run_calls in Hrun as (cs & Hcs & _ & Hfirst & Hlater).
    exists cs. split; [assumption|].
    apply Forall_forall. intros cc Hin.
    apply list_elem_of_lookup in Hin as [[|i] Hi].
    + apply Hfirst in Hi as ->. split; reflexivity.
    + apply Hlater in Hi as (next & _ & _ & _ & _ & ->). split; reflexivity.
Qed.

(** [get_tokens] in closed form *)
Lemma get_tokens_closed request code w :
  form request !! "code" = Some code ->
  get_tokens api environ request w
  = let r := api (served w) in
    let w1 := w ++ [Http {| verb := "POST";
                            url := "https://oauth2.googleapis.com/token";
                            params :=
                              [("code", JStr code);
                               ("grant_type", JStr "authorization_code");
                               ("client_secret", environ_get environ "CLIENT_SECRET");
                               ("client_id", environ_get environ "CLIENT_ID");
                               ("redirect_uri", environ_get environ "REDIRECT_URI")];
                            headers := [("Content-Type", "application/json")] |}] in
    if status_code r =? 200 then
      match (result ← loads (text r);
             a ← py_getitem result "access_token";
             rf ← py_getitem result "refresh_token";
             Val (a, rf)) with
      | Val (a, rf) =>
          (Done {| success := true; tk_status_code := 200;
                   access_token := a; refresh_token := rf;
                   message := EmptyString |}, w1)
      | Exn e => (Raise e, w1)
      end
    else (Done {| success := false; tk_status_code := status_code r;
                  access_token := JNull; refresh_token := JNull;
                  message := text r |}, w1).
Proof.
  intros Hcode. unfold get_tokens, form_get. rewrite Hcode, bind_lift, bind_M.
  unfold requests_post, http. cbv beta iota zeta.
  destruct (status_code (api (served w)) =? 200); [|reflexivity].
  rewrite bind_lift. destruct (loads _) as [result|]; [|reflexivity].
  cbn -[py_getitem]. rewrite bind_lift.
  destruct (py_getitem result "access_token"); [|reflexivity].
  cbn -[py_getitem]. rewrite bind_lift.
  destruct (py_getitem result "refresh_token"); reflexivity.
Qed.

End Entry.

(** X12: a POST with a channel_id never ends in an exception: when the job
    has ended, by returning or by raising, [do_post] returns the response
    object, and what it has done is what the job did. *)
Theorem do_post_always_responds `{PyRuntime} `{WebRuntime}
    (api : nat -> Response) (environ files : gmap string string)
    (fuel : nat) (request : Request) (w : World) :
  is_Some (form request !! "channel_id") ->
  (do_post api environ files fuel request w).2
  = (execute_job api fuel environ request w).2
  /\ match (execute_job api fuel environ request w).1 with
     | Spin => (do_post api environ files fuel request w).1 = Going
     | _ => exists r, (do_post api environ files fuel request w).1 = Ret (Resp r)
     end.
Proof.
  intros Hc. rewrite (do_post_job api environ files fuel request w Hc).
  destruct (execute_job _ _ _ _ _) as [[csv|e|] w1]; cbn [fst snd].
  - destruct (fill_response request make_response csv) as [r [e|]].
    + destruct (on_error_returns files request r e w1) as [r' ->]. eauto.
    + eauto.
  - destruct (on_error_returns files request make_response e w1) as [r ->].
    eauto.
  - auto.
Qed.

Lemma do_post_always_responds_witness :
  exists r,
    (@do_post rt_ab web_demo api_403 (env_limit "5") demo_files 5 demo_request []).1
    = Ret (Resp r).
Proof.
  exact (proj2 (@do_post_always_responds rt_ab web_demo api_403 (env_limit "5")
                  demo_files 5 demo_request []
                  (ex_intro _ "UC1" eq_refl))).
Defined.

(** X13: a POST whose job runs over well-formed pages with records that
    have a UTF-8 encoding, and whose channel_id holds no carriage return
    and no line feed, is answered with the CSV text as the data of the
    response, the content type application/octet-stream and the content
    disposition attachment; filename=comment_ followed by the channel id
    and .csv.  With a carriage return or a line feed in the channel_id the
    content disposition is refused with [ValueError], and the answer is
    that of the exception handler, entered with the CSV text as data and
    the content type already set. *)
Theorem do_post_attachment `{PyRuntime} `{WebRuntime}
    (api : nat -> Response) (environ files : gmap string string)
    (fuel : nat) (request : Request) (access_token channel_id : string)
    (limit : Z) (pages : list Page) (w : World) :
  form request !! "access_token" = Some access_token ->
  form request !! "channel_id" = Some channel_id ->
  py_int_of (environ !! "LIMIT") = Val limit ->
  fetch_run api limit (served w) 0 pages ->
  Forall encodable (all_comments pages) -> (length pages <= fuel)%nat ->
  (count_char CR channel_id = O -> count_char LF channel_id = O ->
   (do_post api environ files fuel request w).1
   = Ret (Resp {| data := universal_newlines (csv (all_comments pages));
                  set_headers :=
                    <["Content-Disposition" :=
                        "attachment; filename=comment_" +:+ channel_id +:+ ".csv"]>
                      (<["Content-Type" := "application/octet-stream"]> ∅) |}))
  /\ ((count_char CR channel_id + count_char LF channel_id)%nat <> O ->
      do_post api environ files fuel request w
      = on_error files request
          {| data := universal_newlines (csv (all_comments pages));
             set_headers := <["Content-Type" := "application/octet-stream"]> ∅ |}
          ValueError
          (w ++ fetch_events channel_id access_token JNull pages
             ++ [Seek 0; Read])).
Proof.
  intros Ha Hc Hl Hp Henc Hlen.
  rewrite (do_post_job api environ files fuel request w (ex_intro _ _ Hc)).
  rewrite (execute_job_run api fuel environ request w _ _ _ _ Ha Hc Hl Hp Henc Hlen).
  rewrite (fill_response_cases request _ channel_id Hc (csv_valid _ Henc)).
  split.
  - intros -> ->. reflexivity.
  - intros Hn. apply Nat.eqb_neq in Hn. rewrite Hn. reflexivity.
Qed.

Lemma do_post_attachment_witness :
  (@do_post rt_ab web_demo api_ab (env_limit "5") demo_files 2 demo_request []).1
  = Ret (Resp {| data := universal_newlines
                           (@csv rt_ab (all_comments [page_a; page_b]));
                 set_headers :=
                   <["Content-Disposition" :=
                       "attachment; filename=comment_" +:+ "UC1" +:+ ".csv"]>
                     (<["Content-Type" := "application/octet-stream"]> ∅) |}).
Proof.
  exact (proj1 (@do_post_attachment rt_ab web_demo api_ab (env_limit "5")
                  demo_files 2 demo_request "ya29" "UC1" 5 [page_a; page_b] []
                  eq_refl eq_refl eq_refl fetch_run_ab encodable_ab
                  (Nat.le_refl 2))
           eq_refl eq_refl).
Defined.

(** X14: when the job ends with [APIException], the form template is there
    and the form has an access_token, the template is filled with that
    token and the message of the exception, status code and response body
    included, and with nothing else.  If that gives a page, and the page
    has a UTF-8 encoding, the answer is the page with the content type
    text/html; if it fails, as it does for a template that names a further
    field, or the page has no UTF-8 encoding, the answer is the response
    as [make_response] made it. *)
Theorem do_post_error_page `{PyRuntime} `{WebRuntime}
    (api : nat -> Response) (environ files : gmap string string)
    (fuel : nat) (request : Request) (access_token : string)
    (code : Z) (text content : string) (w w1 : World) :
  is_Some (form request !! "channel_id") ->
  form request !! "access_token" = Some access_token ->
  execute_job api fuel environ request w = (Raise (APIException code text), w1) ->
  files !! "./form.html" = Some content ->
  do_post api environ files fuel request w
  = (Ret (Resp
            match str_format (universal_newlines content)
                    [("access_token", JStr access_token);
                     ("message",
                      JStr ("APIの呼出でエラーが発生しました。status:"
                            +:+ field_str (JInt code) +:+ ", message"
                            +:+ text))] with
            | Val page =>
                if utf8_valid page then
                  {| data := page;
                     set_headers := <["Content-Type" := "text/html"]> ∅ |}
                else make_response
            | Exn _ => make_response
            end), w1).
Proof.
  intros Hc Ha Hjob Hf.
  rewrite (do_post_job api environ files fuel request w Hc), Hjob.
  unfold on_error, form_get. rewrite Hf, Ha.
  cbn -[api_message str_format set_data set_header].
  assert (api_message code text
          = Val ("APIの呼出でエラーが発生しました。status:"
                 +:+ field_str (JInt code) +:+ ", message" +:+ text)) as ->
    by (unfold api_message; rewrite <- (app_empty_r text) at 2; reflexivity).
  cbv beta iota delta [mbind pyres_bind].
  destruct (str_format _ _) as [page|]; [|reflexivity].
  unfold set_data. destruct (utf8_valid page); reflexivity.
Qed.

Lemma do_post_error_page_witness :
  (@do_post rt_ab web_demo api_403 (env_limit "5") demo_files 5 demo_request []).1
  = Ret (Resp {| data := "<p>APIの呼出でエラーが発生しました。status:403, messagequotaExceeded</p><input value=ya29>";
                 set_headers := <["Content-Type" := "text/html"]> ∅ |}).
Proof.
  erewrite (@do_post_error_page rt_ab web_demo api_403 (env_limit "5") demo_files
              5 demo_request "ya29" 403 "quotaExceeded");
    [|eexists; reflexivity|reflexivity|vm_compute; reflexivity|reflexivity].
  vm_compute. reflexivity.
Defined.

(** X15: a POST with a channel_id and no access_token gets the response
    object as [make_response] made it, with no data and no header set: the
    job raises before any request, the handler of the exception fails on
    the same missing field, and the response is returned all the same. *)
Theorem do_post_missing_token `{PyRuntime} `{WebRuntime}
    (api : nat -> Response) (environ files : gmap string string)
    (fuel : nat) (request : Request) (w : World) :
  is_Some (form request !! "channel_id") ->
  form request !! "access_token" = None ->
  do_post api environ files fuel request w = (Ret (Resp make_response), w).
Proof.
  intros Hc Ha. rewrite (do_post_job api environ files fuel request w Hc).
  unfold execute_job, form_get. rewrite Ha. cbn.
  unfold on_error, form_get. rewrite Ha.
  destruct (files !! "./form.html"); reflexivity.
Qed.

Lemma do_post_missing_token_witness :
  @do_post rt_ab web_demo api_ab (env_limit "5") demo_files 5 no_token_request []
  = (Ret (Resp make_response), []).
Proof.
  apply (@do_post_missing_token rt_ab web_demo api_ab (env_limit "5") demo_files
           5 no_token_request []); [eexists|]; reflexivity.
Defined.

Section Dispatch.
Context `{PyRuntime} `{WebRuntime}.
Variable api : nat -> Response.
Variable environ : gmap string string.
Variable files : gmap string string.

Lemma bind_Web {A B} (m : Web A) (k : A -> Web B) w :
  (m ≫= k) w = match m w with
               | (Ret a, w') => k a w'
               | (Throw e, w') => (Throw e, w')
               | (Going, w') => (Going, w')
               end.
Proof. reflexivity. Qed.

Lemma read_file_eq path w :
  read_file files path w
  = match files !! path with
    | Some content => (Ret (universal_newlines content), w)
    | None => (Throw (FileNotFoundError path), w)
    end.
Proof. unfold read_file. now destruct (files !! path). Qed.

Lemma hlift_eq {A} (r : pyres A) w :
  hlift r w = match r with
              | Val a => (Ret a, w)
              | Exn e => (Throw (Core e), w)
              end.
Proof. now destruct r. Qed.

(** filling a template read from a file touches nothing *)
Lemma render_page_trace path (kw : string -> list (string * json)) w :
  ((read_file files path
      ≫= λ template, hlift (str_format template (kw template))
                       ≫= λ page, mret (Html page)) w).2 = w.
Proof.
  rewrite bind_Web, read_file_eq. destruct (files !! path); [|reflexivity].
  rewrite bind_Web, hlift_eq. destruct (str_format _ _); reflexivity.
Qed.

Lemma handle_init_access_trace w : (handle_init_access environ files w).2 = w.
Proof.
  unfold handle_init_access.
  apply (render_page_trace "./init.html" (fun _ => _)).
Qed.

Lemma handle_login_trace request w :
  (handle_login environ files request w).2 = w.
Proof.
  unfold handle_login.
  rewrite bind_Web, read_file_eq. destruct (files !! "./login.html"); [|reflexivity].
  cbv zeta. rewrite bind_Web, hlift_eq.
  destruct (args request !! "code"); [|reflexivity].
  rewrite bind_Web, hlift_eq. destruct (str_format _ _); reflexivity.
Qed.

Lemma handle_token_calls request w :
  calls (handle_token api environ files request w).2 = calls w
  \/ exists c, calls (handle_token api environ files request w).2 = calls w ++ [c]
               /\ verb c = "POST"
               /\ url c = "https://oauth2.googleapis.com/token".
Proof.
  unfold handle_token. rewrite bind_Web. unfold core.
  destruct (form request !! "code") as [code|] eqn:Hcode.
  - right.
    exists {| verb := "POST"; url := "https://oauth2.googleapis.com/token";
              params := [("code", JStr code);
                         ("grant_type", JStr "authorization_code");
                         ("client_secret", environ_get environ "CLIENT_SECRET");
                         ("client_id", environ_get environ "CLIENT_ID");
                         ("redirect_uri", environ_get environ "REDIRECT_URI")];
              headers := [("Content-Type", "application/json")] |}.
    split; [|split; reflexivity].
    rewrite (get_tokens_closed api environ request code w Hcode). cbv zeta.
    destruct (status_code (api (served w)) =? 200).
    + destruct (_ ← loads _; _) as [[a rf]|e]; cbn [snd];
        rewrite ?(render_page_trace "./form.html" (fun _ => _)), calls_app;
        reflexivity.
    + rewrite (render_page_trace "./form.html" (fun _ => _)), calls_app.
      reflexivity.
  - left. unfold get_tokens, form_get. rewrite Hcode. reflexivity.
Qed.

End Dispatch.

(** X16: a GET request never makes an HTTP call: whatever [get_comments]
    answers, by a page or by an exception, the trace is as it was. *)
Theorem get_makes_no_call `{PyRuntime} `{WebRuntime}
    (api : nat -> Response) (environ files : gmap string string)
    (fuel : nat) (request : Request) (w : World) :
  method request = "GET" ->
  (get_comments api environ files fuel request w).2 = w.
Proof.
  intros Hm. unfold get_comments. rewrite Hm. cbn. unfold do_get.
  destruct (utf8_valid _); [|reflexivity].
  destruct (Nat.eqb _ 0);
    [apply handle_init_access_trace|apply handle_login_trace].
Qed.

Lemma get_makes_no_call_witness :
  (@get_comments rt_ab web_demo api_ab (env_limit "5") demo_files 5
     (get_request "code=4/0A") []).2 = [].
Proof.
  exact (@get_makes_no_call rt_ab web_demo api_ab (env_limit "5") demo_files 5
           (get_request "code=4/0A") [] eq_refl).
Defined.

(** X17: a request that is not a GET contacts one service only: with a
    channel_id in the form every call is a GET on commentThreads, without
    one there is at most one call, a POST to the token endpoint. *)
Theorem post_calls_one_service `{PyRuntime} `{WebRuntime}
    (api : nat -> Response) (environ files : gmap string string)
    (fuel : nat) (request : Request) (w : World) :
  method request <> "GET" ->
  (is_Some (form request !! "channel_id") ->
   exists cs,
     calls (get_comments api environ files fuel request w).2 = calls w ++ cs
     /\ Forall (fun c => verb c = "GET"
                  /\ url c = "https://www.googleapis.com/youtube/v3/commentThreads")
          cs)
  /\ (form request !! "channel_id" = None ->
      calls (get_comments api environ files fuel request w).2 = calls w
      \/ exists c,
           calls (get_comments api environ files fuel request w).2 = calls w ++ [c]
           /\ verb c = "POST"
           /\ url c = "https://oauth2.googleapis.com/token").
Proof.
  intros Hm. unfold get_comments.
  destruct (String.eqb_spec (method request) "GET") as [|_]; [contradiction|].
  split.
  - intros Hc.
    destruct (execute_job_call_of api environ fuel request w) as (cs & Hcs & Hall).
    exists cs. split; [|assumption].
    rewrite <- Hcs. f_equal.
    rewrite (do_post_job api environ files fuel request w Hc).
    destruct (execute_job _ _ _ _ _) as [[csv|e|] w1]; try reflexivity.
    + destruct (fill_response request make_response csv) as [r [e|]];
        [|reflexivity].
      destruct (on_error_returns files request r e w1) as [r' ->]. reflexivity.
    + cbn [snd].
      destruct (on_error_returns files request make_response e w1) as [r ->].
      reflexivity.
  - intros Hc. unfold do_post. rewrite Hc.
    rewrite bool_decide_eq_false_2 by (intros [? ?]; discriminate).
    apply handle_token_calls.
Qed.

Lemma post_calls_one_service_witness :
  calls (@get_comments (table_runtime [body_tokens]) web_demo
           (serve [ok body_tokens]) (env_limit "5") demo_files 5 code_request []).2
  = calls []
  \/ exists c,
       calls (@get_comments (table_runtime [body_tokens]) web_demo
                (serve [ok body_tokens]) (env_limit "5") demo_files 5
                code_request []).2 = calls [] ++ [c]
       /\ verb c = "POST"
       /\ url c = "https://oauth2.googleapis.com/token".
Proof.
  apply (@post_calls_one_service (table_runtime [body_tokens]) web_demo
           (serve [ok body_tokens]) (env_limit "5") demo_files 5 code_request []);
    [discriminate|reflexivity].
Defined.

(** X18: [do_get] looks at the query string only: an empty one gives the
    first page, one that is well-formed UTF-8 and not empty the login
    page, and one that is not well-formed UTF-8 raises
    [UnicodeDecodeError]. *)
Theorem do_get_dispatch `{WebRuntime}
    (environ files : gmap string string) (request : Request) :
  (query_string request = EmptyString ->
   do_get environ files request = handle_init_access environ files)
  /\ (utf8_valid (query_string request) = true ->
      query_string request <> EmptyString ->
      do_get environ files request = handle_login environ files request)
  /\ (utf8_valid (query_string request) = false ->
      forall w, do_get environ files request w = (Throw UnicodeDecodeError, w)).
Proof.
  unfold do_get. split; [|split].
  - intros ->. reflexivity.
  - intros Hv Hne. rewrite Hv.
    destruct (Nat.eqb_spec (code_points (query_string request)) 0) as [Hz|];
      [|reflexivity].
    now apply utf8_first_counts in Hz.
  - intros ->. reflexivity.
Qed.

Lemma do_get_dispatch_witness :
  @do_get web_demo (env_limit "5") demo_files (get_request "code=4/0A")
  = @handle_login web_demo (env_limit "5") demo_files
      (get_request "code=4/0A").
Proof.
  apply (@do_get_dispatch web_demo (env_limit "5") demo_files
           (get_request "code=4/0A")); [reflexivity|discriminate].
Defined.





(** X21: without the form template a failed job leaves no trace in the
    answer: a POST with a channel_id whose job raises is answered with the
    response object as [make_response] made it, no data and no header
    set. *)
Theorem do_post_no_template `{PyRuntime} `{WebRuntime}
    (api : nat -> Response) (environ files : gmap string string)
    (fuel : nat) (request : Request) (e : exn) (w w1 : World) :
  is_Some (form request !! "channel_id") ->
  files !! "./form.html" = None ->
  execute_job api fuel environ request w = (Raise e, w1) ->
  do_post api environ files fuel request w = (Ret (Resp make_response), w1).
Proof.
  intros Hc Hf Hjob.
  rewrite (do_post_job api environ files fuel request w Hc), Hjob.
  unfold on_error. rewrite Hf. reflexivity.
Qed.

Lemma do_post_no_template_witness :
  (@do_post rt_ab web_demo api_403 (env_limit "5") ∅ 5 demo_request []).1
  = Ret (Resp make_response).
Proof.
  erewrite (@do_post_no_template rt_ab web_demo api_403 (env_limit "5") ∅ 5
              demo_request);
    [reflexivity|eexists; reflexivity|reflexivity|vm_compute; reflexivity].
Defined.
